(** * passport-windowsauth: the LDAP validator and the search-entry decoder

    A shallow embedding of [lib/decodeSearchEntry.js] and
    [lib/LdapValidator.js].  JavaScript values are a small inductive type,
    JavaScript objects used as dictionaries are [gmap string jsval], the
    closure variables of one [validate] call are a record, and the callbacks
    that ldapjs fires later are events consumed by a step function. *)

From Stdlib Require Import ZArith NArith List String Ascii Strings.Byte Lia DecimalString.
From stdpp Require Import base gmap strings list.

Import ListNotations.
Local Open Scope string_scope.

(** ** JavaScript strings *)

Module JsString.

(** [s.substring(n)] *)
Fixpoint drop (n : nat) (s : string) : string :=
  match n, s with
  | O, _ => s
  | S _, EmptyString => EmptyString
  | S k, String _ s' => drop k s'
  end.

(** Decimal rendering of a loop index, as in ['\\{' + i + '\\}']. *)
Definition decimal (i : nat) : string :=
  NilEmpty.string_of_uint (Nat.to_uint i).

(** ECMAScript [GetSubstitution] for a pattern without capture groups:
    [$$] is a dollar sign, [$&] the matched text, [$`] the text before the
    match, [$'] the text after it; [$n] and [$<] name groups that do not
    exist and stay as they are. *)
Fixpoint getSubstitution (matched before after repl : string) : string :=
  match repl with
  | EmptyString => EmptyString
  | String c rest =>
    if Ascii.eqb c "$" then
      match rest with
      | EmptyString => String c EmptyString
      | String d r =>
        if Ascii.eqb d "$" then String "$" (getSubstitution matched before after r)
        else if Ascii.eqb d "&" then matched ++ getSubstitution matched before after r
        else if Ascii.eqb d "`" then before ++ getSubstitution matched before after r
        else if Ascii.eqb d "'" then after ++ getSubstitution matched before after r
        else String c (getSubstitution matched before after rest)
      end
    else String c (getSubstitution matched before after rest)
  end.

(** [s.replace(/pat/g, repl)] for a pattern that is an escaped literal
    (non-empty).  [before] is the part of the subject already scanned,
    [skip] the number of characters of the current match still to pass. *)
Fixpoint replace_from (pat repl : string) (skip : nat) (before s : string) : string :=
  match s with
  | EmptyString => EmptyString
  | String c s' =>
    match skip with
    | S k => replace_from pat repl k (before ++ String c EmptyString) s'
    | O =>
      if String.prefix pat s then
        getSubstitution pat before (drop (String.length pat) s) repl
          ++ replace_from pat repl (String.length pat - 1) (before ++ String c EmptyString) s'
      else String c (replace_from pat repl 0 (before ++ String c EmptyString) s')
    end
  end.

Definition replaceAll (pat repl s : string) : string :=
  replace_from pat repl 0 EmptyString s.

End JsString.

(** ** decodeSearchEntry.js: formatGuid *)

Definition hexdigit (n : N) : ascii :=
  match n with
  | 0 => "0" | 1 => "1" | 2 => "2" | 3 => "3" | 4 => "4" | 5 => "5"
  | 6 => "6" | 7 => "7" | 8 => "8" | 9 => "9" | 10 => "a" | 11 => "b"
  | 12 => "c" | 13 => "d" | 14 => "e" | 15 => "f" | _ => "?"
  end%N%char.

(** [n.toString(16)] for a non-negative integer. *)
Fixpoint toString16_fuel (fuel : nat) (n : N) : string :=
  match fuel with
  | O => EmptyString
  | S f =>
    if (n <? 16)%N then String (hexdigit n) EmptyString
    else toString16_fuel f (n / 16) ++ String (hexdigit (n mod 16)) EmptyString
  end.

Definition toString16 (n : N) : string := toString16_fuel (S (N.to_nat (N.log2 n))) n.

Definition guidFormat : string :=
  "{3}{2}{1}{0}-{5}{4}-{7}{6}-{8}{9}-{10}{11}{12}{13}{14}{15}".

(** The [for] loop of [formatGuid]: [i] is the index of the head of [data]. *)
Fixpoint formatGuid_loop (i : nat) (data : list byte) (format : string) : string :=
  match data with
  | [] => format
  | d :: rest =>
    let re := "{" ++ JsString.decimal i ++ "}" in
    let dataStr := toString16 (Byte.to_N d) in
    formatGuid_loop (S i) rest
      (JsString.replaceAll re
         (if (16 <=? Byte.to_N d)%N then dataStr else "0" ++ dataStr) format)
  end.

Definition formatGuid (data : list byte) : string :=
  formatGuid_loop 0 data guidFormat.

(** ** decodeSearchEntry.js: the decoder *)

(** JavaScript values as far as the two files use them. *)
#[warnings="-register-all"]
Inductive jsval : Type :=
| JUndefined
| JNull
| JBool (b : bool)
| JNum (n : Z)
| JStr (s : string)
| JBuffer (bytes : list byte)
| JArr (elems : list jsval)
| JObj (fields : list (string * jsval)).

Inductive jsexn : Type :=
| TypeError (msg : string)
| ReferenceError (msg : string).

(** A call either returns or throws. *)
Inductive completion (A : Type) : Type :=
| Return (a : A)
| Throw (e : jsexn).
Arguments Return {A} a.
Arguments Throw {A} e.

#[global] Instance completion_bind : MBind completion := fun A B k c =>
  match c with
  | Return a => k a
  | Throw e => Throw e
  end.

(** [arr.forEach(f)] where [f] updates an accumulator and may throw. *)
Fixpoint forEach {A S} (l : list A) (f : S -> A -> completion S) (s : S) : completion S :=
  match l with
  | [] => Return s
  | a :: rest => s' ← f s a; forEach rest f s'
  end.

(** An ldapjs attribute ([a.type], [a.vals], [a.buffers]), a response
    control ([element.json]) and a search entry ([entry.dn.toString()],
    [entry.attributes], [entry.controls]). *)
Record attribute : Type := { type : string; vals : list string; buffers : list (list byte) }.
Record control : Type := { json : jsval }.
Record entry : Type := { dn : string; attributes : list attribute; controls : list control }.

(** The decoded profile is a plain object used as a dictionary. *)
Abbreviation profile := (gmap string jsval).

Definition truthy (v : jsval) : bool :=
  match v with
  | JUndefined | JNull => false
  | JBool b => b
  | JNum n => negb (n =? 0)%Z
  | JStr s => negb (String.eqb s "")
  | JBuffer _ | JArr _ | JObj _ => true
  end.

(** [item.length]; [0] also stands for a missing [length] property, which the
    code only tests for truthiness. *)
Definition item_length (item : jsval) : nat :=
  match item with
  | JStr s => String.length s
  | JArr l => List.length l
  | JBuffer b => List.length b
  | _ => 0
  end.

(** [item.slice()]: a shallow copy; values are immutable here. *)
Definition item_slice (item : jsval) : jsval := item.

(** [item[0]] *)
Definition item_first (item : jsval) : jsval :=
  match item with
  | JArr (x :: _) => x
  | JStr (String c _) => JStr (String c EmptyString)
  | JBuffer (b :: _) => JNum (Z.of_N (Byte.to_N b))
  | _ => JUndefined
  end.

(** Lines 34-42: what is stored under [a.type] for a given [item]. *)
Definition collapse (item : jsval) : jsval :=
  if truthy item && (0 <? item_length item)%nat then
    if (1 <? item_length item)%nat then item_slice item else item_first item
  else JArr [].

(** Lines 23-32: the [switch] on [a.type].  [formatGuid(buf[0])] reads
    [data.length] of [undefined] when [buf] is empty. *)
Definition select_item (a : attribute) : completion jsval :=
  if String.eqb (type a) "thumbnailPhoto" then Return (JArr (JBuffer <$> buffers a))
  else if String.eqb (type a) "objectGUID" then
    match buffers a with
    | [] => Throw (TypeError "Cannot read properties of undefined (reading 'length')")
    | b :: _ => Return (JStr (formatGuid b))
    end
  else Return (JArr (JStr <$> vals a)).

(** [obj[k] = v] on the object literal [obj].  Every key becomes an own
    property but [__proto__], the accessor that [obj] inherits from
    [Object.prototype]: its setter replaces the prototype of [obj] when [v]
    is an object and does nothing otherwise, and no own property is stored.
    The prototype itself is left out: the code reads [obj.controls] and
    [userProfile.dn], own properties since the literal, and in [mapProfile]
    names that neither [Object.prototype] nor an array of values has. *)
Definition set_property (k : string) (v : jsval) (obj : profile) : profile :=
  if String.eqb k "__proto__" then obj else <[k := v]> obj.

(** The body of [entry.attributes.forEach] (lines 19-42). *)
Definition decodeAttribute (obj : profile) (a : attribute) : completion profile :=
  item ← select_item a;
  Return (set_property (type a) (collapse item) obj).

(** The body of [entry.controls.forEach]: [obj.controls.push(element.json)].
    [obj.controls] is whatever is stored under that key at that time. *)
Definition pushControl (obj : profile) (element : control) : completion profile :=
  match obj !! "controls" with
  | Some (JArr l) => Return (<["controls" := JArr (l ++ [json element])]> obj)
  | _ => Throw (TypeError "obj.controls.push is not a function")
  end.

(** [module.exports = function(entry) {...}] *)
Definition decodeSearchEntry (e : entry) : completion profile :=
  let obj : profile := <["controls" := JArr []]> (<["dn" := JStr (dn e)]> ∅) in
  obj ← forEach (attributes e) decodeAttribute obj;
  obj ← forEach (controls e) pushControl obj;
  Return obj.

(** ** LdapValidator.js *)

Definition DEFAULT_SEARCH_QUERY : string :=
  "(&(objectclass=user)(|(sAMAccountName={0})(UserPrincipalName={0})))".

(** The options the validator reads.  [search_query] may be absent;
    [reconnect] is the truthiness of [options.reconnect];  [tlsOptions] and
    the timeouts are handed to ldapjs unchanged and play no part here. *)
Record options : Type := {
  url : string;
  maxConnections : option nat;
  bindDN : string;
  bindCredentials : string;
  base : string;
  search_query : option string;
  reconnect : bool
}.

Record LdapValidator : Type := { _options : options; _search_query : string }.

(** The constructor: [options.search_query || DEFAULT_SEARCH_QUERY]. *)
Definition newLdapValidator (o : options) : LdapValidator :=
  {| _options := o;
     _search_query :=
       match search_query o with
       | Some q => if String.eqb q "" then DEFAULT_SEARCH_QUERY else q
       | None => DEFAULT_SEARCH_QUERY
       end |}.

(** An ldapjs error object; the code reads [err.errno]. *)
Record ldaperr : Type := { errno : string; message : string }.

(** What the attempt asks of ldapjs, in order. *)
Inductive ldapop : Type :=
| CreateClient (url : string) (maxConnections : nat) (reconnect : bool)
| Bind (dn : jsval) (credentials : jsval)
| Search (base : string) (scope : string) (filter : string)
| Unbind
| Destroy.

(** The client returned by [ldap.createClient]: ldapjs sets [client.reconnect]
    to an object exactly when [options.reconnect] is truthy, and every client
    has a [destroy] method. *)
Record ldapclient : Type := { client_reconnect : bool }.

(** The task [async.series] is waiting on. *)
Inductive phase : Type := AtBind | AtSearch | AtUnbind | AtValidate | SeriesDone.

(** The closure of one [validate] call, the closure of its [search] task, the
    position of [async.series], and what has been observed from outside:
    operations issued on the client, calls of the outer [callback], and
    exceptions that left a handler. [client = None] is the binding
    [let client] before its declaration has been evaluated. *)
Record attempt : Type := {
  self : LdapValidator;
  username : jsval;
  password : jsval;
  notSent : bool;
  userProfile : option profile;
  isAuthenticated : bool;
  client : option ldapclient;
  entries : list entry;
  notCbSent : bool;
  resOpen : bool;
  series : phase;
  ops : list ldapop;
  called : list (option ldaperr * option profile);
  uncaught : list jsexn
}.

Definition set_notSent (b : bool) (s : attempt) : attempt :=
  {| self := self s; username := username s; password := password s;
     notSent := b; userProfile := userProfile s;
     isAuthenticated := isAuthenticated s; client := client s;
     entries := entries s; notCbSent := notCbSent s; resOpen := resOpen s;
     series := series s; ops := ops s; called := called s; uncaught := uncaught s |}.

Definition set_userProfile (p : option profile) (s : attempt) : attempt :=
  {| self := self s; username := username s; password := password s;
     notSent := notSent s; userProfile := p;
     isAuthenticated := isAuthenticated s; client := client s;
     entries := entries s; notCbSent := notCbSent s; resOpen := resOpen s;
     series := series s; ops := ops s; called := called s; uncaught := uncaught s |}.

Definition set_isAuthenticated (b : bool) (s : attempt) : attempt :=
  {| self := self s; username := username s; password := password s;
     notSent := notSent s; userProfile := userProfile s;
     isAuthenticated := b; client := client s;
     entries := entries s; notCbSent := notCbSent s; resOpen := resOpen s;
     series := series s; ops := ops s; called := called s; uncaught := uncaught s |}.

Definition set_client (c : option ldapclient) (s : attempt) : attempt :=
  {| self := self s; username := username s; password := password s;
     notSent := notSent s; userProfile := userProfile s;
     isAuthenticated := isAuthenticated s; client := c;
     entries := entries s; notCbSent := notCbSent s; resOpen := resOpen s;
     series := series s; ops := ops s; called := called s; uncaught := uncaught s |}.

Definition set_search (es : list entry) (ncs open : bool) (s : attempt) : attempt :=
  {| self := self s; username := username s; password := password s;
     notSent := notSent s; userProfile := userProfile s;
     isAuthenticated := isAuthenticated s; client := client s;
     entries := es; notCbSent := ncs; resOpen := open;
     series := series s; ops := ops s; called := called s; uncaught := uncaught s |}.

Definition set_series (p : phase) (s : attempt) : attempt :=
  {| self := self s; username := username s; password := password s;
     notSent := notSent s; userProfile := userProfile s;
     isAuthenticated := isAuthenticated s; client := client s;
     entries := entries s; notCbSent := notCbSent s; resOpen := resOpen s;
     series := p; ops := ops s; called := called s; uncaught := uncaught s |}.

(** An operation issued on the client. *)
Definition issue (o : ldapop) (s : attempt) : attempt :=
  {| self := self s; username := username s; password := password s;
     notSent := notSent s; userProfile := userProfile s;
     isAuthenticated := isAuthenticated s; client := client s;
     entries := entries s; notCbSent := notCbSent s; resOpen := resOpen s;
     series := series s; ops := ops s ++ [o]; called := called s;
     uncaught := uncaught s |}.

(** A call [callback(err, profile)] of the caller's function. *)
Definition call_callback (err : option ldaperr) (p : option profile) (s : attempt) : attempt :=
  {| self := self s; username := username s; password := password s;
     notSent := notSent s; userProfile := userProfile s;
     isAuthenticated := isAuthenticated s; client := client s;
     entries := entries s; notCbSent := notCbSent s; resOpen := resOpen s;
     series := series s; ops := ops s; called := called s ++ [(err, p)];
     uncaught := uncaught s |}.

(** An exception that aborts the running function. *)
Definition throw (e : jsexn) (s : attempt) : attempt :=
  {| self := self s; username := username s; password := password s;
     notSent := notSent s; userProfile := userProfile s;
     isAuthenticated := isAuthenticated s; client := client s;
     entries := entries s; notCbSent := notCbSent s; resOpen := resOpen s;
     series := series s; ops := ops s; called := called s;
     uncaught := uncaught s ++ [e] |}.

(** [typeof v] *)
Definition typeof (v : jsval) : string :=
  match v with
  | JUndefined => "undefined"
  | JNull => "object"
  | JBool _ => "boolean"
  | JNum _ => "number"
  | JStr _ => "string"
  | JBuffer _ | JArr _ | JObj _ => "object"
  end.

(** The guard of lines 64 and 66: [typeof v !== 'string' || !v.length]. *)
Definition rejected (v : jsval) : bool :=
  negb (String.eqb (typeof v) "string") || negb (0 <? item_length v)%nat.

(** The replacement argument of [replace], a string once the guard passed. *)
Definition string_of (v : jsval) : string :=
  match v with JStr s => s | _ => EmptyString end.

(** [_callback] (lines 171-179).  Reading [client] before [let client] has
    been evaluated throws a ReferenceError.  Here [client.destroy()] returns
    without calling anything back; [_callback_with] below has the call in
    which it does. *)
Definition _callback (err : option ldaperr) (s : attempt) : attempt :=
  match client s with
  | None => throw (ReferenceError "Cannot access 'client' before initialization") s
  | Some _ =>
    let s := issue Destroy s in
    if notSent s then
      call_callback err (if isAuthenticated s then userProfile s else None)
        (set_notSent false s)
    else s
  end.

(** [_createClient] *)
Definition _createClient (v : LdapValidator) : ldapop * ldapclient :=
  let opts := _options v in
  (CreateClient (url opts)
     (match maxConnections opts with Some (S n) => S n | _ => 10 end)
     (reconnect opts),
   {| client_reconnect := reconnect opts |}).

(** The four tasks. Each issues its operation; its callback arrives later as
    an event, except where [validate] calls [cb] at once. *)
Definition bind (s : attempt) : attempt :=
  issue (Bind (JStr (bindDN (_options (self s))))
              (JStr (bindCredentials (_options (self s))))) s.

Definition search_filter (v : LdapValidator) (username : jsval) : string :=
  JsString.replaceAll "{0}" (string_of username) (_search_query v).

Definition search (s : attempt) : attempt :=
  issue (Search (base (_options (self s))) "sub" (search_filter (self s) (username s)))
        (set_search [] true false s).

Definition unbind (s : attempt) : attempt := issue Unbind s.

(** [userProfile.dn] *)
Definition profile_dn (p : profile) : jsval := default JUndefined (p !! "dn").

(** The task [validate] of the series (lines 146-162), named apart from the
    method. *)
Definition validate_task (cb : option ldaperr -> attempt -> attempt) (s : attempt) : attempt :=
  match userProfile s with
  | None => cb None s
  | Some p =>
    if negb (truthy (profile_dn p)) then cb None s
    else issue (Bind (profile_dn p) (password s)) s
  end.

(** [async.series([bind, search, unbind, validate], _callback)]: the [cb]
    handed to the task at [series s].  An error ends the series with that
    error; otherwise the next task starts, and after the last one the final
    callback is called with [null]. *)
Definition series_cb (err : option ldaperr) (s : attempt) : attempt :=
  match err with
  | Some e => _callback (Some e) (set_series SeriesDone s)
  | None =>
    match series s with
    | AtBind => search (set_series AtSearch s)
    | AtSearch => unbind (set_series AtUnbind s)
    | AtUnbind =>
      validate_task
        (fun err s =>
           match err with
           | Some e => _callback (Some e) (set_series SeriesDone s)
           | None => _callback None (set_series SeriesDone s)
           end)
        (set_series AtValidate s)
    | AtValidate => _callback None (set_series SeriesDone s)
    | SeriesDone => s
    end
  end.

(** [_cb] of [search] (lines 123-128) *)
Definition _cb (err : option ldaperr) (s : attempt) : attempt :=
  if notCbSent s then
    series_cb err (set_search (entries s) false (resOpen s) s)
  else s.

(** [validate] up to its return (lines 58-78). *)
Definition validate (v : LdapValidator) (username password : jsval) : attempt :=
  let s :=
    {| self := v; username := username; password := password;
       notSent := true; userProfile := None; isAuthenticated := false;
       client := None; entries := []; notCbSent := true; resOpen := false;
       series := AtBind; ops := []; called := []; uncaught := [] |} in
  if rejected username then _callback None s
  else if rejected password then _callback None s
  else
    let '(o, c) := _createClient v in
    bind (issue o (set_client (Some c) s)).

(** What ldapjs does afterwards: the client's ['error'] event, the callbacks
    of the operations, and the events of the search response. *)
Inductive event : Type :=
| ClientError (err : ldaperr)
| BindReply (err : option ldaperr)
| SearchReply (err : option ldaperr)
| SearchEntry (e : entry)
| ResError (e : ldaperr)
| ResEnd
| UnbindReply (err : option ldaperr)
| VerifyReply (err : option ldaperr).

(** One event, run to completion.  ldapjs calls the callback of an operation
    once, after the operation was issued, so a reply is consumed only while
    its task is the one [async.series] waits on; the listeners on the client
    and on the search response stay registered. *)
Definition handle (ev : event) (s : attempt) : attempt :=
  match client s with
  | None => s
  | Some c =>
    match ev with
    | ClientError err =>
      if String.eqb (errno err) "ECONNRESET" && client_reconnect c then s
      else _callback (Some err) s
    | BindReply err =>
      match series s with AtBind => series_cb err s | _ => s end
    | SearchReply err =>
      match series s with
      | AtSearch =>
        if resOpen s then s
        else match err with
             | Some e => _cb (Some e) s
             | None => set_search (entries s) (notCbSent s) true s
             end
      | _ => s
      end
    | SearchEntry e =>
      if resOpen s then set_search (entries s ++ [e]) (notCbSent s) true s else s
    | ResError e =>
      if resOpen s then _cb (Some e) s else s
    | ResEnd =>
      if resOpen s then
        match entries s with
        | [] => _cb None s
        | e0 :: _ =>
          match decodeSearchEntry e0 with
          | Return p => _cb None (set_userProfile (Some p) s)
          | Throw x => throw x s
          end
        end
      else s
    | UnbindReply err =>
      match series s with AtUnbind => series_cb err s | _ => s end
    | VerifyReply err =>
      match series s with
      | AtValidate =>
        match err with
        | Some _ => series_cb None s
        | None => series_cb None (set_isAuthenticated true s)
        end
      | _ => s
      end
    end
  end.

Definition run (tr : list event) (s : attempt) : attempt :=
  fold_left (fun s ev => handle ev s) tr s.

(** *** [client.destroy()] calling back a queued request

    ldapjs keeps a request in a queue until the connection is up, and
    [client.destroy()] flushes that queue: the callback of a queued request
    is called with an error inside [destroy], before [destroy] returns.  In
    [_callback] that is before [notSent] is read (line 172 comes before line
    174).  The request that can be queued is the one [async.series] waits
    on; its callback runs as the handler of the reply does, with the queue
    already emptied. *)
Definition queued_request (e : ldaperr) (s : attempt) : option event :=
  match series s with
  | AtBind => Some (BindReply (Some e))
  | AtSearch => if resOpen s then None else Some (SearchReply (Some e))
  | AtUnbind => Some (UnbindReply (Some e))
  | AtValidate => Some (VerifyReply (Some e))
  | SeriesDone => None
  end.

(** [client.destroy()]; [queued] is the error handed to the queued request,
    [None] when no request is queued. *)
Definition destroy (queued : option ldaperr) (s : attempt) : attempt :=
  let s := issue Destroy s in
  match queued with
  | None => s
  | Some e =>
    match queued_request e s with
    | Some ev => handle ev s
    | None => s
    end
  end.

(** [_callback] (lines 171-179) with what [destroy] does before it
    returns. *)
Definition _callback_with (queued : option ldaperr) (err : option ldaperr)
    (s : attempt) : attempt :=
  match client s with
  | None => throw (ReferenceError "Cannot access 'client' before initialization") s
  | Some _ =>
    let s := destroy queued s in
    if notSent s then
      call_callback err (if isAuthenticated s then userProfile s else None)
        (set_notSent false s)
    else s
  end.

(** One event, with the request that the client has queued at that time.
    When the series ends nothing is queued any more, so only the listener of
    the client's ['error'] event (lines 71-76) meets a queued request. *)
Definition handle_with (queued : option ldaperr) (ev : event) (s : attempt) : attempt :=
  match ev, client s with
  | ClientError err, Some c =>
    if String.eqb (errno err) "ECONNRESET" && client_reconnect c then s
    else _callback_with queued (Some err) s
  | _, _ => handle ev s
  end.

Definition run_with (tr : list (option ldaperr * event)) (s : attempt) : attempt :=
  fold_left (fun s qe => handle_with (fst qe) (snd qe) s) tr s.

(** ** Vocabulary of the statements *)

(** Two zero-padded lowercase hexadecimal digits for one byte. *)
Definition hi (b : byte) : ascii := hexdigit (Byte.to_N b / 16).
Definition lo (b : byte) : ascii := hexdigit (Byte.to_N b mod 16).
Definition hexpair (h l : ascii) : string := String h (String l EmptyString).
Definition hex2 (b : byte) : string := hexpair (hi b) (lo b).

Definition is_lower_hex (c : ascii) : bool :=
  existsb (Ascii.eqb c) (list_ascii_of_string "0123456789abcdef").

(** The value of a lowercase hexadecimal digit. *)
Definition hexval (c : ascii) : N :=
  (if N_of_ascii c <? 58 then N_of_ascii c - 48 else N_of_ascii c - 87)%N.

(** The bytes at the given indices, each as two digits, in that order. *)
Fixpoint hexgroup (data : list byte) (idxs : list nat) : string :=
  match idxs with
  | [] => EmptyString
  | i :: rest => hex2 (nth i data x00) ++ hexgroup data rest
  end.

(** Replacing every occurrence of [pat] by [repl] taken literally. *)
Fixpoint literal_from (pat repl : string) (skip : nat) (s : string) : string :=
  match s with
  | EmptyString => EmptyString
  | String c s' =>
    match skip with
    | S k => literal_from pat repl k s'
    | O =>
      if String.prefix pat s then repl ++ literal_from pat repl (String.length pat - 1) s'
      else String c (literal_from pat repl 0 s')
    end
  end.

Definition substitute_literal (pat repl s : string) : string := literal_from pat repl 0 s.

Definition plain (repl : string) : Prop :=
  Forall (fun c => c <> "$"%char) (list_ascii_of_string repl).

(** The collapsing rule in the words of the specification. *)
Definition collapsed (vs : list string) : jsval :=
  match vs with
  | [] => JArr []
  | [v] => JStr v
  | _ => JArr (JStr <$> vs)
  end.

(** Number of [client.destroy()] calls. *)
Definition is_destroy (o : ldapop) : bool :=
  match o with Destroy => true | _ => false end.
Definition destroys (s : attempt) : nat := List.length (filter (fun o => is_destroy o = true) (ops s)).

(** A client ['error'] event that the listener does not suppress. *)
Definition fatal (rc : bool) (ev : event) : bool :=
  match ev with
  | ClientError err => negb (String.eqb (errno err) "ECONNRESET" && rc)
  | _ => false
  end.

Definition finished (s : attempt) : nat :=
  match series s with SeriesDone => 1 | _ => 0 end.

(** The operations issued so far while no completion has been attempted. *)
Definition service_bind (s : attempt) : ldapop :=
  Bind (JStr (bindDN (_options (self s)))) (JStr (bindCredentials (_options (self s)))).
Definition the_search (s : attempt) : ldapop :=
  Search (base (_options (self s))) "sub" (search_filter (self s) (username s)).
Definition verify_bind (s : attempt) : ldapop :=
  Bind (from_option profile_dn JUndefined (userProfile s)) (password s).

Definition script (s : attempt) : list ldapop :=
  [fst (_createClient (self s)); service_bind s] ++
  match series s with
  | AtBind => []
  | AtSearch => [the_search s]
  | AtUnbind => [the_search s; Unbind]
  | AtValidate => [the_search s; Unbind; verify_bind s]
  | SeriesDone => []
  end.

(** What holds of every state of an attempt that passed the guard. *)
Record inv (s : attempt) : Prop := {
  inv_client : client s = Some {| client_reconnect := reconnect (_options (self s)) |};
  inv_latch : if notSent s
              then called s = [] /\ destroys s = 0 /\ series s <> SeriesDone
              else (exists c, called s = [c]) /\ 1 <= destroys s;
  inv_auth : series s <> SeriesDone -> isAuthenticated s = false;
  inv_search : notCbSent s = true ->
               userProfile s = None /\ (resOpen s = true -> series s = AtSearch);
  inv_after : notCbSent s = false -> series s <> AtBind /\ series s <> AtSearch;
  inv_res : resOpen s = true -> series s <> AtBind;
  inv_profile : series s = AtValidate ->
                exists p, userProfile s = Some p /\ truthy (profile_dn p) = true;
  inv_entries : forall p, userProfile s = Some p ->
                exists e0 rest, entries s = e0 :: rest /\ decodeSearchEntry e0 = Return p;
  inv_ops : notSent s = true -> ops s = script s
}.

(** The state [validate] returns in when the guard rejects its arguments. *)
Definition fast_path (v : LdapValidator) (u p : jsval) : attempt :=
  {| self := v; username := u; password := p;
     notSent := true; userProfile := None; isAuthenticated := false;
     client := None; entries := []; notCbSent := true; resOpen := false;
     series := AtBind; ops := []; called := [];
     uncaught := [ReferenceError "Cannot access 'client' before initialization"] |}.

Definition count_fatal (rc : bool) (tr : list event) : nat :=
  List.length (filter (fun ev => fatal rc ev = true) tr).

(** Sample data for the closed statements. *)
Definition sample_options : options :=
  {| url := "ldap://dc.example.com"; maxConnections := None;
     bindDN := "CN=svc,DC=example,DC=com"; bindCredentials := "svc-secret";
     base := "DC=example,DC=com"; search_query := None; reconnect := false |}.

Definition sample_validator : LdapValidator := newLdapValidator sample_options.

Definition timeout_error : ldaperr := {| errno := "ETIMEDOUT"; message := "timed out" |}.

Definition reset_error : ldaperr := {| errno := "ECONNRESET"; message := "reset" |}.

Definition reconnecting_validator : LdapValidator :=
  newLdapValidator
    {| url := "ldap://dc.example.com"; maxConnections := Some 4;
       bindDN := "CN=svc,DC=example,DC=com"; bindCredentials := "svc-secret";
       base := "DC=example,DC=com"; search_query := None; reconnect := true |}.

Definition alice : entry :=
  {| dn := "CN=Alice,DC=example,DC=com";
     attributes := [ {| type := "sAMAccountName"; vals := ["alice"]; buffers := [] |} ];
     controls := [] |}.

Definition guid_without_value : entry :=
  {| dn := "CN=Alice,DC=example,DC=com";
     attributes := [ {| type := "objectGUID"; vals := []; buffers := [] |} ];
     controls := [] |}.

Definition controls_attribute_entry : entry :=
  {| dn := "CN=Alice,DC=example,DC=com";
     attributes := [ {| type := "controls"; vals := ["x"]; buffers := [] |} ];
     controls := [ {| json := JObj [("controlType", JStr "1.2.840.113556.1.4.319")] |} ] |}.

Definition mail_attribute : attribute :=
  {| type := "mail"; vals := ["a@example.com"; "b@example.com"]; buffers := [] |}.

(** The latch of [_callback]: open with nothing delivered, or closed with
    one call of the outer callback. *)
Definition latch (s : attempt) : Prop :=
  if notSent s then called s = [] /\ isAuthenticated s = false
  else exists c, called s = [c].

(** The error ldapjs hands to a request it flushes from its queue. *)
Definition destroyed_error : ldaperr := {| errno := ""; message := "client destroyed" |}.

(** The reply of the unbind. *)
Definition is_unbind_reply (ev : event) : bool :=
  match ev with UnbindReply _ => true | _ => false end.

(** What a decoded entry holds under a key. *)
Definition decoded_key (e : entry) (k : string) : completion (option jsval) :=
  p ← decodeSearchEntry e; Return (p !! k).

(** Entries on which the collapsing rule is not what the decoded entry
    shows: an attribute named [controls], an attribute named [__proto__],
    and two attributes of the same type. *)
Definition controls_values_entry : entry :=
  {| dn := "CN=Alice,DC=example,DC=com";
     attributes := [ {| type := "controls"; vals := ["x"; "y"]; buffers := [] |} ];
     controls := [ {| json := JObj [("controlType", JStr "1.2.840.113556.1.4.319")] |} ] |}.

Definition proto_entry : entry :=
  {| dn := "CN=Alice,DC=example,DC=com";
     attributes := [ {| type := "__proto__"; vals := ["x"]; buffers := [] |} ];
     controls := [] |}.

Definition repeated_mail_entry : entry :=
  {| dn := "CN=Alice,DC=example,DC=com";
     attributes := [ {| type := "mail"; vals := ["a@example.com"]; buffers := [] |};
                     {| type := "mail"; vals := ["b@example.com"; "c@example.com"];
                        buffers := [] |} ];
     controls := [] |}.

(** ** Vocabulary of the further statements *)
(** The operations sent to the directory: everything but [destroy]. *)
Definition directory_ops (s : attempt) : list ldapop :=
  filter (fun o => is_destroy o = false) (ops s).

Definition empty_dn_entry : entry :=
  {| dn := ""; attributes := [ {| type := "cn"; vals := ["root"]; buffers := [] |} ];
     controls := [] |}.

(** The events of the search response. *)
Definition is_response (ev : event) : bool :=
  match ev with
  | SearchEntry _ | ResError _ | ResEnd => true
  | _ => false
  end.

(** A client error that the ['error'] listener drops (line 73). *)
Definition suppressed (rc : bool) (ev : event) : bool :=
  match ev with
  | ClientError err => String.eqb (errno err) "ECONNRESET" && rc
  | _ => false
  end.

Definition alice_profile : profile :=
  <["sAMAccountName" := JStr "alice"]>
    (<["controls" := JArr []]> (<["dn" := JStr "CN=Alice,DC=example,DC=com"]> ∅)).

Definition empty_dn_profile : profile :=
  <["cn" := JStr "root"]> (<["controls" := JArr []]> (<["dn" := JStr ""]> ∅)).

(** What an operation on the client may be: the client that [_createClient]
    makes, the bind of the service account, the search with the filter of
    the attempt, or a bind with the caller's password and the truthy [dn] of
    the decoded profile. *)
Definition good_op (s : attempt) (o : ldapop) : Prop :=
  match o with
  | CreateClient _ _ _ => o = fst (_createClient (self s))
  | Bind d c =>
    o = service_bind s
    \/ (c = password s /\ truthy d = true
        /\ exists prof, userProfile s = Some prof /\ d = profile_dn prof)
  | Search _ _ _ => o = the_search s
  | Unbind | Destroy => True
  end.

(** What the state owes to the events so far. *)
Record hist (tr : list event) (s : attempt) : Prop := {
  hist_entries : Forall (fun e => In (SearchEntry e) tr) (entries s);
  hist_auth : isAuthenticated s = true ->
              In (VerifyReply None) tr /\ notSent s = false
              /\ exists prof, userProfile s = Some prof;
  hist_called : Forall (fun c : option ldaperr * option profile =>
                          forall prof, snd c = Some prof ->
                            fst c = None /\ isAuthenticated s = true
                            /\ userProfile s = Some prof)
                       (called s);
  hist_ops : Forall (good_op s) (ops s)
}.

(** The five operations of a complete attempt, in the order of the series. *)
Definition full_script (s : attempt) : list ldapop :=
  [fst (_createClient (self s)); service_bind s; the_search s; Unbind; verify_bind s].

(** How far the series has come, as a number of operations. *)
Definition reached (ph : phase) (n : nat) : Prop :=
  match ph with
  | AtBind => n = 2
  | AtSearch => n = 3
  | AtUnbind => n = 4
  | AtValidate => n = 5
  | SeriesDone => 2 <= n <= 5
  end.

Definition ordered (s : attempt) : Prop :=
  exists n, reached (series s) n
            /\ directory_ops s = take n (full_script s)
            /\ (n = 5 -> exists prof, userProfile s = Some prof).

(** The collapsing rule on a list of buffers. *)
Definition collapsed_buffers (bs : list (list byte)) : jsval :=
  match bs with
  | [] => JArr []
  | [b] => JBuffer b
  | _ => JArr (JBuffer <$> bs)
  end.

Definition photo_attribute : attribute :=
  {| type := "thumbnailPhoto"; vals := ["not used"]; buffers := [[x89; x50; x4e; x47]] |}.

Definition guid_attribute : attribute :=
  {| type := "objectGUID"; vals := ["not used"];
     buffers := [[x01;x02;x03;x04;x05;x06;x07;x08;x09;x0a;x0b;x0c;x0d;x0e;x0f;x10];
                 [xff]] |}.

(** ** strategy.js *)

Module Strategy.

(** [i.key] on a decoded profile: the own property, or [undefined]. *)
Definition get (i : profile) (k : string) : jsval := default JUndefined (i !! k).

(** [a || b] *)
Definition js_or (a b : jsval) : jsval := if truthy a then a else b.

(** The object that [mapProfile] builds; [name] is flattened into its two
    fields. *)
Record passport_profile : Type := {
  id : jsval;
  displayName : jsval;
  familyName : jsval;
  givenName : jsval;
  emails : jsval;
  _json : profile
}.

(** [mapProfile] for an object (lines 72-83). *)
Definition mapProfile_object (i : profile) : passport_profile :=
  {| id := js_or (get i "objectGUID") (get i "uid");
     displayName := get i "displayName";
     familyName := js_or (get i "sn") (get i "surName");
     givenName := js_or (get i "gn") (get i "givenName");
     emails := if truthy (get i "mail")
               then JArr [JObj [("value", get i "mail")]]
               else JUndefined;
     _json := i |}.

(** [mapProfile]: [if (!i) return i] (line 70); a profile object is truthy. *)
Definition mapProfile (i : option profile) : option passport_profile :=
  match i with
  | None => None
  | Some o => Some (mapProfile_object o)
  end.

(** The options of the constructor; [ldap] may be absent, and an absent
    [ldap.url] is the empty string of [url]. *)
Record strategy_options : Type := {
  ldap : option options;
  passReqToCallback : bool;
  usernameField : option string;
  passwordField : option string
}.

(** The fields the constructor sets; [_verify] is the caller's function and
    shows below as the effect of calling it. *)
Record t : Type := {
  name : string;
  _passReqToCallback : bool;
  _usernameField : string;
  _passwordField : string;
  _ldapValidator : LdapValidator
}.

(** [options.usernameField || 'username'] *)
Definition field_or (f : option string) (d : string) : string :=
  match f with
  | Some s => if String.eqb s "" then d else s
  | None => d
  end.

(** The constructor (lines 38-58): the message of the [Error] it throws, or
    the strategy.  [verify_is_function] is [typeof verify === 'function']. *)
Definition new (o : option strategy_options) (verify_is_function : bool) : string + t :=
  if negb verify_is_function
  then inl "windows authentication strategy requires a verify function"
  else match o with
       | None => inl "invalid options"
       | Some so =>
         match ldap so with
         | None => inl "ldap url should be provided in order to validate user and passwords"
         | Some l =>
           if String.eqb (url l) ""
           then inl "ldap url should be provided in order to validate user and passwords"
           else inr {| name := "WindowsAuthentication";
                       _passReqToCallback := passReqToCallback so;
                       _usernameField := field_or (usernameField so) "username";
                       _passwordField := field_or (passwordField so) "password";
                       _ldapValidator := newLdapValidator l |}
         end
       end.

(** A request with its parsed [body] and [query]. *)
Record request : Type := { body : gmap string jsval; query : gmap string jsval }.

(** [req.body[f] || req.query[f]] (lines 97-98) *)
Definition credential (req : request) (f : string) : jsval :=
  js_or (get (body req) f) (get (query req) f).

(** [authenticate] up to its return: the call of [validate]. *)
Definition authenticate (st : t) (req : request) : attempt :=
  validate (_ldapValidator st)
    (credential req (_usernameField st)) (credential req (_passwordField st)).

(** What the callback given to [validate] does (lines 106-114): [self.error]
    or a call of the caller's [verify], with the request first when
    [passReqToCallback] is set. *)
Inductive effect : Type :=
| CallError (err : ldaperr)
| CallVerify (req : option request) (userProfile : option passport_profile).

Definition on_validated (st : t) (req : request)
    (c : option ldaperr * option profile) : effect :=
  match fst c with
  | Some err => CallError err
  | None =>
    CallVerify (if _passReqToCallback st then Some req else None) (mapProfile (snd c))
  end.

Definition effects (st : t) (req : request) (s : attempt) : list effect :=
  on_validated st req <$> called s.

(** [verified] (lines 100-104): what passport is told. *)
Inductive action : Type :=
| Error (err : jsval)
| Fail (info : jsval)
| Success (user info : jsval).

Definition verified (err user info : jsval) : action :=
  if truthy err then Error err
  else if negb (truthy user) then Fail info
  else Success user info.

End Strategy.

Definition sample_strategy : Strategy.t :=
  {| Strategy.name := "WindowsAuthentication"; Strategy._passReqToCallback := false;
     Strategy._usernameField := "username"; Strategy._passwordField := "password";
     Strategy._ldapValidator := sample_validator |}.

Definition empty_request : Strategy.request :=
  {| Strategy.body := ∅; Strategy.query := <["password" := JStr "secret"]> ∅ |}.

Definition mail_less_entry : entry :=
  {| dn := "CN=Bob,DC=example,DC=com";
     attributes := [ {| type := "mail"; vals := []; buffers := [] |};
                     {| type := "objectGUID"; vals := ["raw"];
                        buffers := [[x01;x02;x03;x04;x05;x06;x07;x08;
                                     x09;x0a;x0b;x0c;x0d;x0e;x0f;x10]] |} ];
     controls := [] |}.

Definition bob_profile : profile :=
  <["objectGUID" := JStr "04030201-0605-0807-090a-0b0c0d0e0f10"]>
    (<["mail" := JArr []]>
       (<["controls" := JArr []]> (<["dn" := JStr "CN=Bob,DC=example,DC=com"]> ∅))).

(** ** Strings: substitution and replacement *)

Section Replace.
Import JsString.

Lemma getSubstitution_plain m b a repl :
  plain repl -> getSubstitution m b a repl = repl.
Proof.
  unfold plain. induction repl as [|c r IH]; simpl; intros H; [reflexivity|].
  inversion H as [|? ? Hc Hr]; subst.
  destruct (Ascii.eqb_spec c "$"); [contradiction|].
  by rewrite IH.
Qed.

Lemma replace_from_literal pat repl s : forall k b,
  plain repl -> replace_from pat repl k b s = literal_from pat repl k s.
Proof.
  induction s as [|c s IH]; intros k b H; simpl; [reflexivity|].
  destruct k as [|k]; [|by apply IH].
  rewrite (getSubstitution_plain _ _ _ _ H), !IH by done. reflexivity.
Qed.

Lemma replaceAll_literal pat repl s :
  plain repl -> replaceAll pat repl s = substitute_literal pat repl s.
Proof. intros H. by apply replace_from_literal. Qed.

Lemma replaceAll_miss pat repl c s :
  plain repl ->
  String.prefix pat (String c s) = false ->
  replaceAll pat repl (String c s) = String c (replaceAll pat repl s).
Proof.
  intros H Hp. rewrite !replaceAll_literal by done.
  unfold substitute_literal. cbn [literal_from]. by rewrite Hp.
Qed.

Lemma literal_from_skip pat repl x s :
  literal_from pat repl (String.length x) (x ++ s) = substitute_literal pat repl s.
Proof. induction x as [|c x IH]; simpl; [by destruct s | apply IH]. Qed.

Lemma prefix_app pat s : String.prefix pat (pat ++ s) = true.
Proof.
  induction pat as [|c p IH]; simpl; [by destruct s|].
  destruct (ascii_dec c c); [done | congruence].
Qed.

Lemma replaceAll_hit c pat repl s :
  plain repl ->
  replaceAll (String c pat) repl (String c (pat ++ s))
  = repl ++ replaceAll (String c pat) repl s.
Proof.
  intros H. rewrite !replaceAll_literal by done.
  unfold substitute_literal. cbn [literal_from].
  change (String c (pat ++ s)) with (String c pat ++ s).
  rewrite prefix_app. f_equal. cbn [String.length].
  replace (S (String.length pat) - 1) with (String.length pat) by lia.
  apply literal_from_skip.
Qed.
End Replace.

(** ** formatGuid *)

Lemma pad_hex2 (d : byte) :
  (if (16 <=? Byte.to_N d)%N then toString16 (Byte.to_N d)
   else "0" ++ toString16 (Byte.to_N d)) = hex2 d.
Proof. destruct d; vm_compute; reflexivity. Qed.

Lemma hi_lower b : is_lower_hex (hi b) = true.
Proof. destruct b; reflexivity. Qed.

Lemma lo_lower b : is_lower_hex (lo b) = true.
Proof. destruct b; reflexivity. Qed.

Lemma hex2_value (b : byte) : (16 * hexval (hi b) + hexval (lo b))%N = Byte.to_N b.
Proof. destruct b; vm_compute; reflexivity. Qed.

Lemma lower_hex_plain c : is_lower_hex c = true -> c <> "$"%char /\ c <> "{"%char.
Proof. intros H; split; intros ->; discriminate H. Qed.

(** One pass of [replace] over the format, read from the left: the result is
    built character by character. *)
Section Pass.
Import JsString.
Variables (h l : ascii).
Hypothesis (Hh : is_lower_hex h = true) (Hl : is_lower_hex l = true).

Lemma hexpair_plain : plain (hexpair h l).
Proof. repeat constructor; by apply lower_hex_plain. Qed.

Lemma pass_nil pat : replaceAll pat (hexpair h l) "" = "".
Proof. reflexivity. Qed.

Lemma pass_hit3 a b c s t :
  replaceAll (String a (String b (String c ""))) (hexpair h l) s = t ->
  replaceAll (String a (String b (String c ""))) (hexpair h l)
    (String a (String b (String c s)))
  = String h (String l t).
Proof.
  intros <-. exact (replaceAll_hit a (String b (String c "")) _ s hexpair_plain).
Qed.

Lemma pass_hit4 a b c d s t :
  replaceAll (String a (String b (String c (String d "")))) (hexpair h l) s = t ->
  replaceAll (String a (String b (String c (String d "")))) (hexpair h l)
    (String a (String b (String c (String d s))))
  = String h (String l t).
Proof.
  intros <-.
  exact (replaceAll_hit a (String b (String c (String d ""))) _ s hexpair_plain).
Qed.

Lemma pass_other pat c s t :
  String.prefix pat (String c s) = false ->
  replaceAll pat (hexpair h l) s = t ->
  replaceAll pat (hexpair h l) (String c s) = String c t.
Proof. intros Hp <-. apply replaceAll_miss; [apply hexpair_plain | done]. Qed.

Lemma pass_hex pat c s t :
  is_lower_hex c = true ->
  replaceAll (String "{" pat) (hexpair h l) s = t ->
  replaceAll (String "{" pat) (hexpair h l) (String c s) = String c t.
Proof.
  intros Hc. apply pass_other.
  change (String.prefix (String "{" pat) (String c s))
    with (if ascii_dec "{" c then String.prefix pat s else false).
  destruct (ascii_dec "{" c) as [<-|]; [discriminate Hc | reflexivity].
Qed.
End Pass.

Lemma formatGuid_loop_step i d rest fmt pat fmt' r :
  "{" ++ JsString.decimal i ++ "}" = pat ->
  JsString.replaceAll pat (hexpair (hi d) (lo d)) fmt = fmt' ->
  formatGuid_loop (S i) rest fmt' = r ->
  formatGuid_loop i (d :: rest) fmt = r.
Proof. intros <- <- <-. cbn [formatGuid_loop]. by rewrite pad_hex2. Qed.

Ltac hex_side := first [apply hi_lower | apply lo_lower].

Ltac pass :=
  repeat first
    [ apply pass_nil
    | eapply pass_hit3; [hex_side | hex_side | ]
    | eapply pass_hit4; [hex_side | hex_side | ]
    | eapply pass_other; [hex_side | hex_side | reflexivity | ]
    | eapply pass_hex; [hex_side | hex_side | hex_side | ] ].

Ltac loop_step :=
  eapply formatGuid_loop_step;
  [ match goal with
    | |- ?p = _ => let v := eval vm_compute in p in exact (eq_refl v)
    end
  | pass
  | ].

Lemma formatGuid_16 b0 b1 b2 b3 b4 b5 b6 b7 b8 b9 b10 b11 b12 b13 b14 b15 :
  formatGuid [b0;b1;b2;b3;b4;b5;b6;b7;b8;b9;b10;b11;b12;b13;b14;b15]
  = hex2 b3 ++ hex2 b2 ++ hex2 b1 ++ hex2 b0 ++ "-" ++ hex2 b5 ++ hex2 b4 ++ "-"
    ++ hex2 b7 ++ hex2 b6 ++ "-" ++ hex2 b8 ++ hex2 b9 ++ "-"
    ++ hex2 b10 ++ hex2 b11 ++ hex2 b12 ++ hex2 b13 ++ hex2 b14 ++ hex2 b15.
Proof.
  unfold formatGuid, guidFormat.
  do 16 loop_step.
  reflexivity.
Qed.

(** C7. For every 16-byte input, [formatGuid] yields the bytes 3,2,1,0, then
    5,4, then 7,6, then 8,9, then 10..15, every byte as two zero-padded
    lowercase hexadecimal digits, the five groups joined by hyphens: 36
    characters in all.  The bytes 01 02 ... 10 give
    04030201-0605-0807-090a-0b0c0d0e0f10. *)
Theorem formatGuid_layout (data : list byte) :
  List.length data = 16 ->
  formatGuid data
  = hexgroup data [3;2;1;0] ++ "-" ++ hexgroup data [5;4] ++ "-"
    ++ hexgroup data [7;6] ++ "-" ++ hexgroup data [8;9] ++ "-"
    ++ hexgroup data [10;11;12;13;14;15]
  /\ String.length (formatGuid data) = 36
  /\ Forall (fun c => is_lower_hex c = true \/ c = "-"%char)
            (list_ascii_of_string (formatGuid data))
  /\ (forall b, String.length (hex2 b) = 2
                /\ is_lower_hex (hi b) = true /\ is_lower_hex (lo b) = true
                /\ (16 * hexval (hi b) + hexval (lo b))%N = Byte.to_N b)
  /\ formatGuid [x01;x02;x03;x04;x05;x06;x07;x08;x09;x0a;x0b;x0c;x0d;x0e;x0f;x10]
     = "04030201-0605-0807-090a-0b0c0d0e0f10".
Proof.
  intros Hlen.
  do 16 (destruct data as [|? data]; [discriminate Hlen|]).
  destruct data; [clear Hlen | discriminate Hlen].
  rewrite formatGuid_16.
  split; [reflexivity|]. split; [reflexivity|]. split.
  { unfold hex2, hexpair. cbn [list_ascii_of_string String.append].
    repeat (apply List.Forall_cons; [first [left; hex_side | right; reflexivity]|]).
    apply List.Forall_nil. }
  split; [|vm_compute; reflexivity].
  intros b'. auto using hi_lower, lo_lower, hex2_value.
Qed.

Lemma formatGuid_layout_witness :
  formatGuid [x01;x02;x03;x04;x05;x06;x07;x08;x09;x0a;x0b;x0c;x0d;x0e;x0f;xff]
  = "04030201-0605-0807-090a-0b0c0d0e0fff".
Proof.
  destruct (formatGuid_layout
              [x01;x02;x03;x04;x05;x06;x07;x08;x09;x0a;x0b;x0c;x0d;x0e;x0f;xff]
              eq_refl) as [H _].
  exact H.
Defined.

(** ** decodeSearchEntry *)

Lemma forEach_app {A S} (f : S -> A -> completion S) (l1 l2 : list A) (s : S) :
  forEach (l1 ++ l2) f s = (s' ← forEach l1 f s; forEach l2 f s').
Proof.
  revert s. induction l1 as [|a l1 IH]; intros s; simpl; [reflexivity|].
  destruct (f s a) as [s'|e]; simpl; [apply IH | reflexivity].
Qed.

Lemma select_item_default (a : attribute) :
  type a <> "thumbnailPhoto" -> type a <> "objectGUID" ->
  select_item a = Return (JArr (JStr <$> vals a)).
Proof.
  intros H1 H2. unfold select_item.
  destruct (String.eqb_spec (type a) "thumbnailPhoto"); [contradiction|].
  destruct (String.eqb_spec (type a) "objectGUID"); [contradiction|].
  reflexivity.
Qed.

Lemma collapse_vals (vs : list string) : collapse (JArr (JStr <$> vs)) = collapsed vs.
Proof. destruct vs as [|v [|w vs]]; reflexivity. Qed.

Lemma set_property_own (k : string) (v : jsval) (obj : profile) :
  k <> "__proto__" -> set_property k v obj = <[k := v]> obj.
Proof. unfold set_property. by destruct (String.eqb_spec k "__proto__"). Qed.

Lemma set_property_lookup_ne (k k' : string) (v : jsval) (obj : profile) :
  k' <> k -> set_property k v obj !! k' = obj !! k'.
Proof.
  intros H. unfold set_property. destruct (String.eqb k "__proto__"); [done|].
  by rewrite lookup_insert_ne.
Qed.

Lemma decodeAttribute_lookup_ne (obj obj' : profile) (a : attribute) (k : string) :
  decodeAttribute obj a = Return obj' -> k <> type a -> obj' !! k = obj !! k.
Proof.
  unfold decodeAttribute. destruct (select_item a) as [item|x]; simpl; [|discriminate].
  intros [= <-] Hk. by apply set_property_lookup_ne.
Qed.

Lemma decodeAttributes_lookup_ne (l : list attribute) (k : string) :
  forall (obj obj' : profile),
    forEach l decodeAttribute obj = Return obj' ->
    Forall (fun a => type a <> k) l ->
    obj' !! k = obj !! k.
Proof.
  induction l as [|a l IH]; intros obj obj' H Hall; simpl in H.
  - by injection H as <-.
  - inversion Hall as [|? ? Ha Hl]; subst.
    destruct (decodeAttribute obj a) as [obj1|x] eqn:E; simpl in H; [|discriminate].
    rewrite (IH _ _ H Hl). eapply decodeAttribute_lookup_ne; [exact E | congruence].
Qed.

Lemma pushControl_lookup_ne (obj obj' : profile) (c : control) (k : string) :
  pushControl obj c = Return obj' -> k <> "controls" -> obj' !! k = obj !! k.
Proof.
  unfold pushControl. destruct (obj !! "controls") as [[]|]; try discriminate.
  intros [= <-] Hk. by rewrite lookup_insert_ne.
Qed.

Lemma pushControls_lookup_ne (l : list control) (k : string) :
  forall (obj obj' : profile),
    forEach l pushControl obj = Return obj' -> k <> "controls" -> obj' !! k = obj !! k.
Proof.
  induction l as [|c l IH]; intros obj obj' H Hk; simpl in H.
  - by injection H as <-.
  - destruct (pushControl obj c) as [obj1|x] eqn:E; simpl in H; [|discriminate].
    rewrite (IH _ _ H Hk). by eapply pushControl_lookup_ne.
Qed.

Lemma pushControls_returns (l : list control) :
  forall (obj : profile) (cs : list jsval),
    obj !! "controls" = Some (JArr cs) ->
    exists obj', forEach l pushControl obj = Return obj'
                 /\ obj' !! "controls" = Some (JArr (cs ++ (json <$> l))).
Proof.
  induction l as [|c l IH]; intros obj cs H; cbn [forEach].
  - exists obj. by rewrite app_nil_r.
  - assert (Hc : pushControl obj c = Return (<["controls" := JArr (cs ++ [json c])]> obj))
      by (unfold pushControl; by rewrite H).
    rewrite Hc. cbn [mbind completion_bind].
    destruct (IH (<["controls" := JArr (cs ++ [json c])]> obj) (cs ++ [json c])%list)
      as (obj' & Hrun & Hctl); [by rewrite lookup_insert_eq|].
    exists obj'. split; [exact Hrun|]. by rewrite Hctl, <- app_assoc.
Qed.

Lemma decodeAttributes_returns (l : list attribute) :
  Forall (fun a => type a = "objectGUID" -> buffers a <> []) l ->
  forall obj : profile, exists obj', forEach l decodeAttribute obj = Return obj'.
Proof.
  induction 1 as [|a l Ha _ IH]; intros obj; cbn [forEach]; [by eexists|].
  assert (exists item, select_item a = Return item) as [item Hitem].
  { unfold select_item.
    destruct (String.eqb_spec (type a) "thumbnailPhoto"); [by eexists|].
    destruct (String.eqb_spec (type a) "objectGUID") as [Hg|]; [|by eexists].
    destruct (buffers a) eqn:E; [by destruct (Ha Hg) | by eexists]. }
  assert (Hd : decodeAttribute obj a
               = Return (set_property (type a) (collapse item) obj))
    by (unfold decodeAttribute; by rewrite Hitem).
  rewrite Hd. apply IH.
Qed.

(** Where the decoder does return: no [objectGUID] attribute without a
    buffer, and no attribute that takes the key [controls]. *)
Lemma decodeSearchEntry_returns (e : entry) :
  Forall (fun a => type a = "objectGUID" -> buffers a <> []) (attributes e) ->
  Forall (fun a => type a <> "controls") (attributes e) ->
  exists p, decodeSearchEntry e = Return p
            /\ p !! "controls" = Some (JArr (json <$> controls e)).
Proof.
  intros Hg Hc. unfold decodeSearchEntry.
  destruct (decodeAttributes_returns _ Hg
              (<["controls" := JArr []]> (<["dn" := JStr (dn e)]> ∅))) as [obj1 H1].
  rewrite H1. simpl.
  destruct (pushControls_returns (controls e) obj1 []) as (p & Hp & Hctl).
  { rewrite (decodeAttributes_lookup_ne _ _ _ _ H1 Hc). by rewrite lookup_insert_eq. }
  exists p. rewrite Hp. by split.
Qed.

(** C3. The decoder throws on an entry whose [objectGUID] attribute has no
    value: [formatGuid(buf[0])] reads [length] of [undefined]. *)
Theorem decode_objectGUID_without_value_throws :
  decodeSearchEntry guid_without_value
  = Throw (TypeError "Cannot read properties of undefined (reading 'length')").
Proof. reflexivity. Qed.

(** An attribute that takes the key [controls] with a single value leaves a
    string there, on which [push] is not a function. *)
Example decode_controls_attribute_throws :
  decodeSearchEntry controls_attribute_entry
  = Throw (TypeError "obj.controls.push is not a function").
Proof. reflexivity. Qed.

(** C8, as the code has it. An attribute whose type is none of
    [thumbnailPhoto], [objectGUID] and [__proto__] is stored under its type
    as [[]] when it has no value, as the value itself when it has one, and as
    the array of its values when it has several; that is the value found in
    the decoded entry under that type, when no later attribute has the same
    type and the type is not [controls].  An attribute of type [__proto__]
    stores nothing. *)
Theorem decode_collapsing (a : attribute) :
  type a <> "thumbnailPhoto" -> type a <> "objectGUID" -> type a <> "__proto__" ->
  (forall obj : profile,
     decodeAttribute obj a = Return (<[type a := collapsed (vals a)]> obj))
  /\ (vals a = [] -> collapsed (vals a) = JArr [])
  /\ (forall v, vals a = [v] -> collapsed (vals a) = JStr v)
  /\ (forall v w vs, vals a = v :: w :: vs -> collapsed (vals a) = JArr (JStr <$> vals a))
  /\ (forall (e : entry) (pre post : list attribute) (p : profile),
        attributes e = (pre ++ a :: post)%list ->
        Forall (fun a' => type a' <> type a) post ->
        type a <> "controls" ->
        decodeSearchEntry e = Return p ->
        p !! type a = Some (collapsed (vals a)))
  /\ (forall (a' : attribute) (obj : profile),
        type a' = "__proto__" -> decodeAttribute obj a' = Return obj).
Proof.
  intros H1 H2 H3.
  assert (Hattr : forall obj : profile,
             decodeAttribute obj a = Return (<[type a := collapsed (vals a)]> obj)).
  { intros obj. unfold decodeAttribute.
    rewrite (select_item_default a H1 H2). simpl.
    by rewrite collapse_vals, set_property_own. }
  split; [exact Hattr|].
  split; [by intros ->|]. split; [by intros v ->|]. split; [by intros v w vs ->|].
  split.
  - intros e pre post p Hsplit Hpost Hctl. unfold decodeSearchEntry.
    rewrite Hsplit, forEach_app.
    destruct (forEach pre decodeAttribute _) as [obj1|x]; simpl; [|discriminate].
    rewrite Hattr. simpl.
    destruct (forEach post decodeAttribute _) as [obj2|x] eqn:E2; simpl; [|discriminate].
    destruct (forEach (controls e) pushControl obj2) as [obj3|x] eqn:E3; simpl;
      [|discriminate].
    intros [= <-].
    rewrite (pushControls_lookup_ne _ _ _ _ E3 Hctl).
    rewrite (decodeAttributes_lookup_ne _ _ _ _ E2 Hpost).
    by rewrite lookup_insert_eq.
  - intros a' obj Ht. unfold decodeAttribute, select_item, set_property.
    rewrite Ht. reflexivity.
Qed.

Lemma decode_collapsing_witness :
  decodeAttribute ∅ mail_attribute
  = Return (<["mail" := JArr [JStr "a@example.com"; JStr "b@example.com"]]> ∅).
Proof.
  refine (proj1 (decode_collapsing mail_attribute _ _ _) ∅); discriminate.
Defined.

(** C8 does not hold of every attribute.  The values of an attribute named
    [controls] end up in front of the response controls; an attribute named
    [__proto__] leaves no key; and of two attributes with the same type only
    the later one shows. *)
Lemma decode_collapsing_fails :
  decoded_key controls_values_entry "controls"
  = Return (Some (JArr [JStr "x"; JStr "y";
                        JObj [("controlType", JStr "1.2.840.113556.1.4.319")]]))
  /\ decoded_key controls_values_entry "controls"
     <> Return (Some (collapsed ["x"; "y"]))
  /\ decoded_key proto_entry "__proto__" = Return None
  /\ decoded_key proto_entry "__proto__" <> Return (Some (collapsed ["x"]))
  /\ decoded_key repeated_mail_entry "mail"
     = Return (Some (JArr [JStr "b@example.com"; JStr "c@example.com"]))
  /\ decoded_key repeated_mail_entry "mail" <> Return (Some (collapsed ["a@example.com"])).
Proof. vm_compute. repeat split; discriminate. Qed.

(** ** validate: the invariant *)

#[local] Arguments decodeSearchEntry : simpl never.
#[local] Arguments search_filter : simpl never.
#[local] Arguments profile_dn : simpl never.
#[local] Arguments truthy : simpl never.

Lemma handle_no_client (ev : event) (s : attempt) : client s = None -> handle ev s = s.
Proof. intros H. unfold handle. by rewrite H. Qed.

Lemma run_no_client (tr : list event) (s : attempt) : client s = None -> run tr s = s.
Proof.
  revert s. induction tr as [|ev tr IH]; intros s H; simpl; [reflexivity|].
  rewrite handle_no_client by done. by apply IH.
Qed.

Lemma run_app (tr1 tr2 : list event) (s : attempt) :
  run (tr1 ++ tr2) s = run tr2 (run tr1 s).
Proof. apply fold_left_app. Qed.

Ltac split_state s :=
  destruct s as [v u pw ns up au cl es ncs ro ph os cs un].

Ltac use_hyps :=
  repeat match goal with
  | H : ?a = ?a -> _ |- _ => specialize (H eq_refl)
  | H : true = false -> _ |- _ => clear H
  | H : false = true -> _ |- _ => clear H
  | H : _ /\ _ |- _ => destruct H
  | H : exists _, _ |- _ => destruct H
  end.

Ltac unfold_state :=
  unfold destroys, script, verify_bind, the_search, service_bind, issue,
    set_search, set_series, set_notSent, set_userProfile, set_isAuthenticated,
    call_callback, throw; simpl.

Ltac count_ops := rewrite ?filter_app, ?length_app in *; simpl in *; lia.

Ltac fin :=
  intros; use_hyps; subst;
  repeat match goal with
  | H : negb _ = false |- _ => apply negb_false_iff in H
  | H : negb _ = true |- _ => apply negb_true_iff in H
  | H : Some _ = Some _ |- _ => injection H as H; subst
  end;
  first
    [ done
    | congruence
    | repeat split; first [done | congruence]
    | do 2 eexists; split; [reflexivity | done]
    | eexists; split; [reflexivity | done]
    | eexists; reflexivity
    | count_ops
    | split; [eexists; reflexivity | count_ops] ].

(** No handler creates a client: the operation that created it stays folded. *)
Opaque _createClient.

(** Every handler keeps the invariant. *)
Lemma handle_inv (ev : event) (s : attempt) : inv s -> inv (handle ev s).
Proof.
  intros [Hc Hl Ha Hs Hf Hr Hp He Ho].
  split_state s. unfold destroys, script, verify_bind, the_search, service_bind in *.
  simpl in *. subst cl.
  destruct ev; unfold handle, _cb, series_cb, validate_task, _callback, search, unbind;
    simpl; repeat case_match; simpl in *; subst; try discriminate;
    use_hyps; subst;
    (constructor; simpl; try done; try congruence; try tauto; try solve [eauto]).
  all: try (destruct ncs); try (destruct ro); use_hyps; subst;
    try discriminate; try congruence.
  all: unfold_state.
  all: try fin.
  all: try (intros p' Hp'; destruct (He _ Hp') as (e0 & rest & E & D);
            simplify_eq/=; do 2 eexists; split; [reflexivity | done]).
  all: try (destruct (Hp eq_refl) as (p' & Hp' & Ht);
            destruct (He _ Hp') as (e0 & rest & E & D); simplify_eq/=;
            first [by eexists | done]).
  all: destruct (He _ eq_refl) as (e0 & rest & E & D); simplify_eq/=.
  all: match goal with
       | H1 : decodeSearchEntry ?e = Return ?a,
         H2 : decodeSearchEntry ?e = Return ?x |- _ =>
         assert (a = x) by congruence; subst
       end.
  all: first [done | intros _; eexists; split; [reflexivity | assumption]].
Qed.

Lemma run_inv (tr : list event) (s : attempt) : inv s -> inv (run tr s).
Proof.
  revert s. induction tr as [|ev tr IH]; intros s H; simpl; [exact H|].
  apply IH, handle_inv, H.
Qed.

Lemma handle_args (ev : event) (s : attempt) :
  self (handle ev s) = self s /\ username (handle ev s) = username s
  /\ password (handle ev s) = password s.
Proof.
  split_state s.
  destruct ev; unfold handle, _cb, series_cb, validate_task, _callback, search, unbind;
    simpl; repeat case_match; by repeat split.
Qed.

Lemma run_args (tr : list event) (s : attempt) :
  self (run tr s) = self s /\ username (run tr s) = username s
  /\ password (run tr s) = password s.
Proof.
  revert s. induction tr as [|ev tr IH]; intros s; simpl; [done|].
  destruct (IH (handle ev s)) as (-> & -> & ->). apply handle_args.
Qed.

Lemma validate_args (v : LdapValidator) (u p : jsval) :
  self (validate v u p) = v /\ username (validate v u p) = u
  /\ password (validate v u p) = p.
Proof. unfold validate. destruct (rejected u), (rejected p); by repeat split. Qed.

Transparent _createClient.

(** The two ways [validate] returns. *)
Lemma validate_rejected (v : LdapValidator) (u p : jsval) :
  rejected u = true \/ rejected p = true -> validate v u p = fast_path v u p.
Proof.
  unfold validate. intros [H|H].
  - by rewrite H.
  - rewrite H. by destruct (rejected u).
Qed.

Lemma validate_accepted (v : LdapValidator) (u p : jsval) :
  rejected u = false -> rejected p = false ->
  inv (validate v u p) /\ self (validate v u p) = v /\ series (validate v u p) = AtBind
  /\ notSent (validate v u p) = true.
Proof.
  intros H1 H2. unfold validate. rewrite H1, H2. simpl.
  split; [|done]. constructor; simpl; try done; try (intros; discriminate).
Qed.

Lemma run_rejected (v : LdapValidator) (u p : jsval) (tr : list event) :
  rejected u = true \/ rejected p = true -> run tr (validate v u p) = fast_path v u p.
Proof. intros H. rewrite (validate_rejected v u p H). by apply run_no_client. Qed.

Lemma validate_cases (v : LdapValidator) (u p : jsval) (tr : list event) :
  run tr (validate v u p) = fast_path v u p
  \/ (rejected u = false /\ rejected p = false /\ inv (run tr (validate v u p))).
Proof.
  destruct (rejected u) eqn:Hu; [left; apply run_rejected; by left|].
  destruct (rejected p) eqn:Hp; [left; apply run_rejected; by right|].
  right. split; [done|]. split; [done|]. apply run_inv. by apply validate_accepted.
Qed.

(** ** validate: the completion latch *)

Lemma handle_latched (ev : event) (s : attempt) :
  notSent s = false -> notSent (handle ev s) = false /\ called (handle ev s) = called s.
Proof.
  split_state s. simpl. intros ->.
  destruct ev; unfold handle, _cb, series_cb, validate_task, _callback, search, unbind;
    simpl; repeat case_match; simpl; by split.
Qed.

Lemma run_latched (tr : list event) (s : attempt) :
  notSent s = false -> notSent (run tr s) = false /\ called (run tr s) = called s.
Proof.
  revert s. induction tr as [|ev tr IH]; intros s H; simpl; [done|].
  destruct (handle_latched ev s H) as [H1 H2].
  destruct (IH _ H1) as [H3 H4]. split; [done | congruence].
Qed.

Lemma _callback_latched (err : option ldaperr) (s : attempt) :
  notSent s = false -> called (_callback err s) = called s.
Proof. unfold _callback. intros H. destruct (client s); simpl; by rewrite ?H. Qed.

(** ** validate: the latch, with a queued request *)

Lemma handle_latch (ev : event) (s : attempt) : latch s -> latch (handle ev s).
Proof.
  unfold latch. split_state s. simpl.
  destruct ev; unfold handle, _cb, series_cb, validate_task, _callback, search, unbind;
    simpl; repeat case_match; simpl in *; subst; try done;
    intros; use_hyps; subst; try discriminate; try done; try (by eexists).
Qed.

Lemma destroy_latch (q : option ldaperr) (s : attempt) : latch s -> latch (destroy q s).
Proof.
  intros H. unfold destroy.
  assert (H' : latch (issue Destroy s)) by exact H.
  destruct q as [e|]; [|exact H'].
  destruct (queued_request e (issue Destroy s)); [by apply handle_latch | exact H'].
Qed.

Lemma _callback_with_latch (q err : option ldaperr) (s : attempt) :
  latch s -> latch (_callback_with q err s).
Proof.
  intros H. unfold _callback_with. destruct (client s); [|exact H].
  pose proof (destroy_latch q s H) as H'. cbv zeta. unfold latch in *.
  destruct (notSent (destroy q s)) eqn:E; simpl.
  - destruct H' as [-> _]. by eexists.
  - by rewrite E.
Qed.

Lemma handle_with_latch (q : option ldaperr) (ev : event) (s : attempt) :
  latch s -> latch (handle_with q ev s).
Proof.
  intros H. unfold handle_with.
  destruct ev; try by apply handle_latch.
  destruct (client s) eqn:E; [|by apply handle_latch].
  destruct (_ && _); [exact H | by apply _callback_with_latch].
Qed.

Lemma run_with_latch (tr : list (option ldaperr * event)) (s : attempt) :
  latch s -> latch (run_with tr s).
Proof.
  revert s. induction tr as [|[q ev] tr IH]; intros s H; simpl; [exact H|].
  apply IH. by apply handle_with_latch.
Qed.

Lemma validate_latch (v : LdapValidator) (u p : jsval) : latch (validate v u p).
Proof. unfold validate, latch. destruct (rejected u), (rejected p); by simpl. Qed.

Lemma destroy_latched (q : option ldaperr) (s : attempt) :
  notSent s = false -> notSent (destroy q s) = false /\ called (destroy q s) = called s.
Proof.
  intros H. unfold destroy.
  destruct q as [e|]; [|done].
  destruct (queued_request e (issue Destroy s)); [|done].
  by apply (handle_latched _ (issue Destroy s)).
Qed.

Lemma _callback_with_latched (q err : option ldaperr) (s : attempt) :
  notSent s = false ->
  notSent (_callback_with q err s) = false
  /\ called (_callback_with q err s) = called s.
Proof.
  intros H. unfold _callback_with. destruct (client s); [|done].
  destruct (destroy_latched q s H) as [H1 H2]. cbv zeta. by rewrite H1.
Qed.

Lemma handle_with_latched (q : option ldaperr) (ev : event) (s : attempt) :
  notSent s = false ->
  notSent (handle_with q ev s) = false /\ called (handle_with q ev s) = called s.
Proof.
  intros H. unfold handle_with.
  destruct ev; try by apply handle_latched.
  destruct (client s) eqn:E; [|by apply handle_latched].
  destruct (_ && _); [done | by apply _callback_with_latched].
Qed.

Lemma run_with_latched (tr : list (option ldaperr * event)) (s : attempt) :
  notSent s = false ->
  notSent (run_with tr s) = false /\ called (run_with tr s) = called s.
Proof.
  revert s. induction tr as [|[q ev] tr IH]; intros s H; simpl; [done|].
  destruct (handle_with_latched q ev s H) as [H1 H2].
  destruct (IH _ H1) as [H3 H4]. split; [done | congruence].
Qed.

Lemma run_with_app (tr1 tr2 : list (option ldaperr * event)) (s : attempt) :
  run_with (tr1 ++ tr2) s = run_with tr2 (run_with tr1 s).
Proof. unfold run_with. by rewrite fold_left_app. Qed.

Lemma latch_closed (s : attempt) : latch s -> called s <> [] -> notSent s = false.
Proof. unfold latch. destruct (notSent s); [intros [-> _] H; by destruct H | done]. Qed.

Lemma latch_open (s : attempt) :
  latch s -> called s = [] -> notSent s = true /\ isAuthenticated s = false.
Proof.
  unfold latch. destruct (notSent s); [by intros [_ ->] | intros [c ->]; discriminate].
Qed.

Lemma run_with_run (tr : list event) (s : attempt) :
  run_with (pair None <$> tr) s = run tr s.
Proof.
  revert s. induction tr as [|ev tr IH]; intros s; simpl; [reflexivity|].
  rewrite <- IH. f_equal. unfold handle_with, handle. simpl.
  destruct ev; try reflexivity. by destruct (client s).
Qed.

Lemma queued_bind_delivered (e : ldaperr) (err : option ldaperr) (s : attempt) :
  latch s -> client s <> None -> called s = [] -> series s = AtBind ->
  called (_callback_with (Some e) err s) = [(Some e, None)].
Proof.
  intros Hl Hc Hcalled Hser. destruct (latch_open s Hl Hcalled) as [Hns Hau].
  split_state s. simpl in *. subst. destruct cl; [|by destruct Hc].
  reflexivity.
Qed.

(** The two completions of the claim as events, on an attempt on which
    nothing has been delivered: a client error that is not a connection
    reset, with no request queued, and the failure of the service bind. *)
Lemma first_event_delivered (s : attempt) :
  latch s -> client s <> None -> called s = [] ->
  (forall err, String.eqb (errno err) "ECONNRESET" = false ->
     called (handle_with None (ClientError err) s) = [(Some err, None)])
  /\ (series s = AtBind ->
      forall q e, called (handle_with q (BindReply (Some e)) s) = [(Some e, None)]).
Proof.
  intros Hl Hc Hcalled. destruct (latch_open s Hl Hcalled) as [Hns Hau].
  split_state s. simpl in *. subst. destruct cl; [|by destruct Hc].
  split.
  - intros err He. unfold handle_with, _callback_with, destroy. simpl. by rewrite He.
  - intros ->. reflexivity.
Qed.



(** The two orders of a client error and the end of the series, with no
    request left in the queue: the first completion is the one the caller
    sees. *)
Example error_then_series_failure :
  called (run [ClientError reset_error; BindReply (Some timeout_error)]
              (validate sample_validator (JStr "alice") (JStr "secret")))
  = [(Some reset_error, None)].
Proof. vm_compute. reflexivity. Qed.

Example series_failure_then_error :
  called (run [BindReply (Some timeout_error); ClientError reset_error]
              (validate sample_validator (JStr "alice") (JStr "secret")))
  = [(Some timeout_error, None)].
Proof. vm_compute. reflexivity. Qed.

(** A connection reset is suppressed when the client reconnects by itself. *)
Example reset_suppressed :
  called (run [ClientError reset_error]
              (validate reconnecting_validator (JStr "alice") (JStr "secret"))) = []
  /\ destroys (run [ClientError reset_error]
                   (validate reconnecting_validator (JStr "alice") (JStr "secret"))) = 0.
Proof. vm_compute. split; reflexivity. Qed.

(** The whole sequence with a matching entry and the right password. *)
Example alice_authenticated :
  exists prof,
    decodeSearchEntry alice = Return prof
    /\ called (run [BindReply None; SearchReply None; SearchEntry alice; ResEnd;
                    UnbindReply None; VerifyReply None]
                   (validate sample_validator (JStr "alice") (JStr "correct")))
       = [(None, Some prof)].
Proof. eexists. split; [reflexivity | vm_compute; reflexivity]. Qed.

(** C2. With an empty username the call throws: [_callback] reads [client]
    before [let client] has been evaluated, and the outer callback is not
    called. *)
Theorem validate_empty_username_throws :
  called (validate sample_validator (JStr "") (JStr "secret")) = []
  /\ uncaught (validate sample_validator (JStr "") (JStr "secret"))
     = [ReferenceError "Cannot access 'client' before initialization"]
  /\ ops (validate sample_validator (JStr "") (JStr "secret")) = [].
Proof. vm_compute. auto. Qed.

(** The same on the whole fast path, and nothing happens afterwards. *)
Lemma fast_path_throws (v : LdapValidator) (u p : jsval) (tr : list event) :
  rejected u = true \/ rejected p = true ->
  let s := run tr (validate v u p) in
  called s = []
  /\ uncaught s = [ReferenceError "Cannot access 'client' before initialization"]
  /\ ops s = [] /\ client s = None.
Proof. intros H s. subst s. by rewrite (run_rejected v u p tr H). Qed.

Lemma typeof_rejected (x : jsval) : typeof x <> "string" -> rejected x = true.
Proof. destruct x; simpl; intros H; try reflexivity. by destruct H. Qed.

(** C10. A username or password that is not a string is rejected by the
    guard: no client is created, no operation is issued, and the outer
    callback is never called with a profile. *)
Theorem non_string_credentials_rejected (v : LdapValidator) (u p : jsval) (tr : list event) :
  typeof u <> "string" \/ typeof p <> "string" ->
  (rejected u = true \/ rejected p = true)
  /\ let s := run tr (validate v u p) in
     client s = None /\ ops s = []
     /\ Forall (fun c : option ldaperr * option profile => snd c = None) (called s).
Proof.
  intros H.
  assert (Hr : rejected u = true \/ rejected p = true)
    by (destruct H as [H|H]; [left | right]; by apply typeof_rejected).
  split; [exact Hr|]. cbv zeta.
  destruct (fast_path_throws v u p tr Hr) as (Hc & _ & Ho & Hcl).
  rewrite Hc. by repeat split.
Qed.

Lemma non_string_credentials_rejected_witness :
  ops (run [BindReply None; SearchReply None]
           (validate sample_validator (JNum 42) (JStr "secret"))) = [].
Proof.
  refine (proj1 (proj2 (proj2
    (non_string_credentials_rejected sample_validator (JNum 42) (JStr "secret")
       [BindReply None; SearchReply None] _)))).
  left. discriminate.
Defined.

(** ** validate: destroying the client *)

Opaque _createClient.

Lemma handle_destroys (ev : event) (s : attempt) :
  inv s ->
  destroys (handle ev s) + finished s
  = destroys s + (if fatal (reconnect (_options (self s))) ev then 1 else 0)
    + finished (handle ev s).
Proof.
  intros [Hc Hl Ha Hs Hf Hr Hp He Ho].
  split_state s. unfold destroys, finished in *. simpl in *. subst cl.
  destruct ev; unfold handle, _cb, series_cb, validate_task, _callback, search, unbind;
    simpl;
    try (destruct (String.eqb (errno err) "ECONNRESET"), (reconnect (_options v)); simpl);
    repeat case_match; simpl in *; subst; try discriminate;
    use_hyps; subst; try congruence; try count_ops.
Qed.

Transparent _createClient.

Lemma run_destroys (tr : list event) (s : attempt) :
  inv s ->
  destroys (run tr s) + finished s
  = destroys s + count_fatal (reconnect (_options (self s))) tr + finished (run tr s).
Proof.
  revert s. induction tr as [|ev tr IH]; intros s H; simpl.
  - unfold count_fatal. simpl. lia.
  - pose proof (handle_destroys ev s H) as H1.
    pose proof (IH _ (handle_inv ev s H)) as H2.
    destruct (handle_args ev s) as (Hself & _ & _). rewrite Hself in H2.
    unfold count_fatal in *. rewrite filter_cons.
    destruct (decide (fatal (reconnect (_options (self s))) ev = true)) as [E|E];
      [|apply not_true_is_false in E]; rewrite E in H1; simpl; lia.
Qed.

(** C4, as the code has it. An attempt that passed the guard calls
    [client.destroy()] once for every client error that is not suppressed and
    once when the series ends; so at least once whenever the outer callback
    has been called. *)
Theorem destroy_once_per_completion_attempt
    (v : LdapValidator) (u p : jsval) (tr : list event) :
  rejected u = false -> rejected p = false ->
  let s := run tr (validate v u p) in
  destroys s = count_fatal (reconnect (_options v)) tr + finished s
  /\ (called s <> [] -> 1 <= destroys s).
Proof.
  intros Hu Hp. cbv zeta.
  destruct (validate_accepted v u p Hu Hp) as (Hinv & Hself & Hser & Hns).
  pose proof (run_destroys tr _ Hinv) as H. rewrite Hself in H.
  destruct Hinv as [_ Hl _ _ _ _ _ _ _]. rewrite Hns in Hl. cbv iota in Hl.
  destruct Hl as (_ & Hd & _).
  unfold finished in H at 1. rewrite Hser, Hd in H. split; [lia|].
  destruct (run_inv tr _ (proj1 (validate_accepted v u p Hu Hp))) as [_ Hl _ _ _ _ _ _ _].
  intros Hne. destruct (notSent (run tr (validate v u p))).
  - destruct Hl as (Hc & _). contradiction.
  - by destruct Hl.
Qed.

Lemma destroy_once_per_completion_attempt_witness :
  destroys (run [BindReply None; SearchReply None; ResEnd; UnbindReply None]
                (validate sample_validator (JStr "nosuchuser") (JStr "anything"))) = 1.
Proof.
  refine (proj1 (destroy_once_per_completion_attempt sample_validator
                   (JStr "nosuchuser") (JStr "anything")
                   [BindReply None; SearchReply None; ResEnd; UnbindReply None]
                   eq_refl eq_refl)).
Defined.

(** C4 does not hold with "exactly once": a client error followed by the
    failure of the service bind completes the attempt once and destroys the
    client twice. *)
Lemma destroy_twice :
  called (run [ClientError timeout_error; BindReply (Some timeout_error)]
              (validate sample_validator (JStr "alice") (JStr "secret")))
  = [(Some timeout_error, None)]
  /\ destroys (run [ClientError timeout_error; BindReply (Some timeout_error)]
                   (validate sample_validator (JStr "alice") (JStr "secret"))) = 2
  /\ destroys (run [ClientError timeout_error; BindReply (Some timeout_error)]
                   (validate sample_validator (JStr "alice") (JStr "secret"))) <> 1.
Proof. vm_compute. repeat split. discriminate. Qed.

(** ** validate: the outcomes of the step sequence *)

Lemma verify_failure_step (s : attempt) (err : ldaperr) :
  inv s -> series s = AtValidate ->
  (exists prof, userProfile s = Some prof /\ truthy (profile_dn prof) = true)
  /\ series (handle (VerifyReply (Some err)) s) = SeriesDone
  /\ isAuthenticated (handle (VerifyReply (Some err)) s) = false
  /\ called (handle (VerifyReply (Some err)) s)
     = (called s ++ if notSent s then [(None, None)] else [])%list
  /\ (notSent s = true -> called (handle (VerifyReply (Some err)) s) = [(None, None)]).
Proof.
  intros [Hc Hl Ha Hs Hf Hr Hp He Ho] Hser.
  split; [by apply Hp|].
  split_state s. simpl in *. subst cl ph.
  rewrite (Ha ltac:(discriminate)) in *.
  unfold handle, series_cb, _callback. simpl.
  destruct ns; simpl.
  - destruct Hl as (-> & _). by repeat split.
  - rewrite app_nil_r. repeat split. discriminate.
Qed.

(** C5, as the code has it. When the verification bind is pending (an entry
    was found and decoded to a profile with a [dn]) and it fails, the series
    ends without authentication and without an error: if no completion was
    delivered before, the outer callback is called with no error and no
    profile, the same call as when no entry matches; otherwise it is not
    called again. *)
Theorem verify_failure_not_authenticated
    (v : LdapValidator) (u p : jsval) (tr : list event) (err : ldaperr) :
  let s := run tr (validate v u p) in
  series s = AtValidate ->
  (exists prof, userProfile s = Some prof /\ truthy (profile_dn prof) = true)
  /\ let s' := handle (VerifyReply (Some err)) s in
     series s' = SeriesDone /\ isAuthenticated s' = false
     /\ called s' = (called s ++ if notSent s then [(None, None)] else [])%list
     /\ (notSent s = true -> called s' = [(None, None)]).
Proof.
  cbv zeta. intros Hser.
  destruct (validate_cases v u p tr) as [Hf|(_ & _ & Hinv)].
  - rewrite Hf in Hser. discriminate Hser.
  - by apply verify_failure_step.
Qed.

Lemma verify_failure_not_authenticated_witness :
  series (run [BindReply None; SearchReply None; SearchEntry alice; ResEnd;
               UnbindReply None]
              (validate sample_validator (JStr "alice") (JStr "wrong")))
  = AtValidate
  /\ called (handle (VerifyReply (Some timeout_error))
               (run [BindReply None; SearchReply None; SearchEntry alice; ResEnd;
                     UnbindReply None]
                    (validate sample_validator (JStr "alice") (JStr "wrong"))))
     = [(None, None)].
Proof.
  assert (Hser : series (run [BindReply None; SearchReply None; SearchEntry alice;
                              ResEnd; UnbindReply None]
                             (validate sample_validator (JStr "alice") (JStr "wrong")))
                 = AtValidate) by (vm_compute; reflexivity).
  split; [exact Hser|].
  pose proof (verify_failure_not_authenticated sample_validator (JStr "alice")
                (JStr "wrong") _ timeout_error Hser) as H.
  cbv zeta in H. destruct H as (_ & _ & _ & _ & H).
  apply H. vm_compute. reflexivity.
Defined.

(** C5 does not hold when a connection error was delivered before the
    verification bind fails: the caller has received that error, and the
    failure of the bind is not reported. *)
Lemma verify_failure_after_client_error :
  series (run [BindReply None; SearchReply None; SearchEntry alice; ResEnd;
               UnbindReply None; ClientError timeout_error]
              (validate sample_validator (JStr "alice") (JStr "wrong")))
  = AtValidate
  /\ called (run [BindReply None; SearchReply None; SearchEntry alice; ResEnd;
                  UnbindReply None; ClientError timeout_error;
                  VerifyReply (Some timeout_error)]
                 (validate sample_validator (JStr "alice") (JStr "wrong")))
     = [(Some timeout_error, None)]
  /\ called (run [BindReply None; SearchReply None; SearchEntry alice; ResEnd;
                  UnbindReply None; ClientError timeout_error;
                  VerifyReply (Some timeout_error)]
                 (validate sample_validator (JStr "alice") (JStr "wrong")))
     <> [(None, None)].
Proof. vm_compute. repeat split. discriminate. Qed.

(** ** validate: the search filter *)

(** The filter of the search that an attempt issues (the invariant gives the
    operations of an attempt on which no completion has been attempted). *)
Lemma search_issued (v : LdapValidator) (u p : jsval) (tr : list event) :
  let s := run tr (validate v u p) in
  notSent s = true -> series s = AtSearch ->
  ops s = [fst (_createClient v);
           Bind (JStr (bindDN (_options v))) (JStr (bindCredentials (_options v)));
           Search (base (_options v)) "sub" (search_filter v u)].
Proof.
  cbv zeta. intros Hns Hser.
  destruct (validate_cases v u p tr) as [Hf|(_ & _ & Hinv)].
  - rewrite Hf in Hser. discriminate Hser.
  - destruct Hinv as [_ _ _ _ _ _ _ _ Ho]. rewrite (Ho Hns).
    unfold script, service_bind, the_search. rewrite Hser.
    destruct (run_args tr (validate v u p)) as (-> & -> & _).
    by destruct (validate_args v u p) as (-> & -> & _).
Qed.

(** A username without a dollar sign is inserted as it is. *)
Lemma search_filter_plain (v : LdapValidator) (name : string) :
  plain name ->
  search_filter v (JStr name) = substitute_literal "{0}" name (_search_query v).
Proof. intros H. unfold search_filter. simpl. by apply replaceAll_literal. Qed.

Lemma default_search_query (o : options) :
  search_query o = None -> _search_query (newLdapValidator o) = DEFAULT_SEARCH_QUERY.
Proof. unfold newLdapValidator. simpl. by intros ->. Qed.

Example search_filter_alice :
  search_filter sample_validator (JStr "alice")
  = "(&(objectclass=user)(|(sAMAccountName=alice)(UserPrincipalName=alice)))".
Proof. vm_compute. reflexivity. Qed.

(** C9. The filter is built with [replace] and a replacement string, in
    which a dollar sign is special: for the username [a$$b] the filter that
    is issued holds [a$b], not the username. *)
Theorem search_filter_dollar :
  ops (run [BindReply None] (validate sample_validator (JStr "a$$b") (JStr "secret")))
  = [CreateClient "ldap://dc.example.com" 10 false;
           Bind (JStr "CN=svc,DC=example,DC=com") (JStr "svc-secret");
           Search "DC=example,DC=com" "sub"
             "(&(objectclass=user)(|(sAMAccountName=a$b)(UserPrincipalName=a$b)))"]
  /\ substitute_literal "{0}" "a$$b" DEFAULT_SEARCH_QUERY
     = "(&(objectclass=user)(|(sAMAccountName=a$$b)(UserPrincipalName=a$$b)))"
  /\ search_filter sample_validator (JStr "a$$b")
     <> substitute_literal "{0}" "a$$b" (_search_query sample_validator).
Proof. vm_compute. repeat split. discriminate. Qed.

(** ** validate: the other ways through the series *)

Opaque _createClient.

Lemma series_steps (s : attempt) :
  inv s -> notSent s = true ->
  (series s = AtBind ->
   forall e,
     called (handle (BindReply (Some e)) s) = [(Some e, None)]
     /\ ops (handle (BindReply (Some e)) s)
        = [fst (_createClient (self s)); service_bind s; Destroy]
     /\ series (handle (BindReply (Some e)) s) = SeriesDone)
  /\ (series s = AtSearch -> resOpen s = false ->
      forall e,
        called (handle (SearchReply (Some e)) s) = [(Some e, None)]
        /\ ops (handle (SearchReply (Some e)) s)
           = [fst (_createClient (self s)); service_bind s; the_search s; Destroy]
        /\ series (handle (SearchReply (Some e)) s) = SeriesDone)
  /\ (series s = AtSearch -> resOpen s = true ->
      forall e,
        called (handle (ResError e) s) = [(Some e, None)]
        /\ ops (handle (ResError e) s)
           = [fst (_createClient (self s)); service_bind s; the_search s; Destroy]
        /\ series (handle (ResError e) s) = SeriesDone)
  /\ (series s = AtUnbind ->
      forall e,
        called (handle (UnbindReply (Some e)) s) = [(Some e, None)]
        /\ ops (handle (UnbindReply (Some e)) s)
           = [fst (_createClient (self s)); service_bind s; the_search s; Unbind; Destroy]
        /\ series (handle (UnbindReply (Some e)) s) = SeriesDone)
  /\ (series s = AtUnbind ->
      forall prof, userProfile s = Some prof -> truthy (profile_dn prof) = true ->
        called (handle (UnbindReply None) s) = []
        /\ ops (handle (UnbindReply None) s)
           = [fst (_createClient (self s)); service_bind s; the_search s; Unbind;
              Bind (profile_dn prof) (password s)]
        /\ series (handle (UnbindReply None) s) = AtValidate)
  /\ (series s = AtUnbind ->
      forall prof, userProfile s = Some prof -> truthy (profile_dn prof) = false ->
        called (handle (UnbindReply None) s) = [(None, None)]
        /\ ops (handle (UnbindReply None) s)
           = [fst (_createClient (self s)); service_bind s; the_search s; Unbind; Destroy]
        /\ series (handle (UnbindReply None) s) = SeriesDone)
  /\ (series s = AtValidate ->
      exists prof e0 rest,
        userProfile s = Some prof /\ entries s = e0 :: rest
        /\ decodeSearchEntry e0 = Return prof
        /\ called (handle (VerifyReply None) s) = [(None, Some prof)]
        /\ isAuthenticated (handle (VerifyReply None) s) = true
        /\ ops (handle (VerifyReply None) s)
           = [fst (_createClient (self s)); service_bind s; the_search s; Unbind;
              Bind (profile_dn prof) (password s); Destroy]).
Proof.
  intros [Hc Hl Ha Hs Hf Hr Hp He Ho] Hns.
  split_state s. unfold script, service_bind, the_search, verify_bind in *. simpl in *.
  subst cl ns. destruct Hl as (-> & _ & Hnd). specialize (Ho eq_refl). subst os.
  rewrite (Ha Hnd) in *.
  repeat split; intros; subst;
    try (destruct ncs; [|destruct (Hf eq_refl); congruence]);
    unfold handle, _cb, series_cb, validate_task, _callback, unbind; simpl;
    repeat match goal with
           | H : truthy _ = _ |- _ => rewrite H
           end; simpl; try done.
  destruct (Hp eq_refl) as (prof & -> & Ht).
  destruct (He _ eq_refl) as (e0 & rest & -> & Hd).
  exists prof, e0, rest. by repeat split.
Qed.

(** The reply of the unbind, whether or not a completion was delivered
    before. *)
Lemma unbind_steps (s : attempt) :
  inv s -> series s = AtUnbind ->
  (forall e,
     series (handle (UnbindReply (Some e)) s) = SeriesDone
     /\ ops (handle (UnbindReply (Some e)) s) = (ops s ++ [Destroy])%list
     /\ called (handle (UnbindReply (Some e)) s)
        = (if notSent s then [(Some e, None)] else called s))
  /\ (forall prof, userProfile s = Some prof -> truthy (profile_dn prof) = true ->
        series (handle (UnbindReply None) s) = AtValidate
        /\ ops (handle (UnbindReply None) s)
           = (ops s ++ [Bind (profile_dn prof) (password s)])%list
        /\ called (handle (UnbindReply None) s) = called s)
  /\ ((userProfile s = None
       \/ exists prof, userProfile s = Some prof /\ truthy (profile_dn prof) = false) ->
      series (handle (UnbindReply None) s) = SeriesDone
      /\ ops (handle (UnbindReply None) s) = (ops s ++ [Destroy])%list
      /\ called (handle (UnbindReply None) s)
         = (if notSent s then [(None, None)] else called s))
  /\ (notSent s = true ->
      ops s = [fst (_createClient (self s)); service_bind s; the_search s; Unbind]).
Proof.
  intros [Hc Hl Ha Hs Hf Hr Hp He Ho] Hser.
  split_state s. unfold script, service_bind, the_search in *. simpl in *.
  subst cl ph. rewrite (Ha ltac:(discriminate)) in *.
  unfold handle, series_cb, validate_task, _callback. simpl.
  split; [|split; [|split]].
  - intros e. destruct ns; simpl; [destruct Hl as (-> & _)|]; done.
  - intros prof -> ->. done.
  - intros [->|(prof & -> & ->)]; simpl; (destruct ns; simpl; [destruct Hl as (-> & _)|]; done).
  - intros ->. by apply Ho.
Qed.

Transparent _createClient.

Lemma accepted_run (v : LdapValidator) (u p : jsval) (tr : list event) :
  rejected u = false -> rejected p = false ->
  inv (run tr (validate v u p))
  /\ self (run tr (validate v u p)) = v
  /\ username (run tr (validate v u p)) = u
  /\ password (run tr (validate v u p)) = p.
Proof.
  intros Hu Hp. split; [apply run_inv; by apply validate_accepted|].
  destruct (run_args tr (validate v u p)) as (-> & -> & ->). apply validate_args.
Qed.

Opaque _createClient.

Lemma finished_step (ev : event) (s : attempt) :
  inv s -> series s = SeriesDone ->
  series (handle ev s) = SeriesDone /\ directory_ops (handle ev s) = directory_ops s.
Proof.
  intros [Hc Hl Ha Hs Hf Hr Hp He Ho] Hser.
  split_state s. unfold directory_ops. simpl in *. subst cl ph.
  destruct ev; unfold handle, _cb, series_cb, validate_task, _callback, search, unbind;
    simpl; repeat case_match; simpl in *; subst; try discriminate;
    use_hyps; try congruence;
    rewrite ?filter_app, ?app_nil_r; by split.
Qed.

Transparent _createClient.

Lemma finished_run (tr : list event) (s : attempt) :
  inv s -> series s = SeriesDone ->
  series (run tr s) = SeriesDone /\ directory_ops (run tr s) = directory_ops s.
Proof.
  revert s. induction tr as [|ev tr IH]; intros s Hinv Hser; simpl; [done|].
  destruct (finished_step ev s Hinv Hser) as [H1 H2].
  destruct (IH _ (handle_inv ev s Hinv) H1) as [H3 H4]. split; [done | congruence].
Qed.

(** X1. When the bind of the service account fails on an attempt that passed
    the guard, the outer callback is called with that error, the client is
    destroyed, and nothing more is ever sent to the directory: no search, no
    unbind, no second bind, whatever events follow. *)
Theorem service_bind_failure_stops
    (v : LdapValidator) (u p : jsval) (tr tr' : list event) (e : ldaperr) :
  rejected u = false -> rejected p = false ->
  series (run tr (validate v u p)) = AtBind ->
  notSent (run tr (validate v u p)) = true ->
  called (handle (BindReply (Some e)) (run tr (validate v u p))) = [(Some e, None)]
  /\ ops (handle (BindReply (Some e)) (run tr (validate v u p)))
     = [fst (_createClient v);
        Bind (JStr (bindDN (_options v))) (JStr (bindCredentials (_options v)));
        Destroy]
  /\ directory_ops (run tr' (handle (BindReply (Some e)) (run tr (validate v u p))))
     = [fst (_createClient v);
        Bind (JStr (bindDN (_options v))) (JStr (bindCredentials (_options v)))].
Proof.
  intros Hu Hp Hser Hns.
  destruct (accepted_run v u p tr Hu Hp) as (Hinv & Hs & Hun & Hpw).
  destruct (series_steps _ Hinv Hns) as (H & _).
  destruct (H Hser e) as (H1 & H2 & H3).
  unfold service_bind in H2. rewrite Hs in H2.
  split; [exact H1|]. split; [exact H2|].
  destruct (finished_run tr' _ (handle_inv _ _ Hinv) H3) as [_ ->].
  unfold directory_ops. by rewrite H2.
Qed.

Lemma service_bind_failure_stops_witness :
  directory_ops
    (run [SearchReply None; ResEnd; UnbindReply None]
       (handle (BindReply (Some timeout_error))
          (run [] (validate sample_validator (JStr "alice") (JStr "secret")))))
  = [CreateClient "ldap://dc.example.com" 10 false;
     Bind (JStr "CN=svc,DC=example,DC=com") (JStr "svc-secret")].
Proof.
  pose proof (service_bind_failure_stops sample_validator (JStr "alice") (JStr "secret")
                [] [SearchReply None; ResEnd; UnbindReply None] timeout_error
                eq_refl eq_refl eq_refl eq_refl) as (_ & _ & H).
  exact H.
Defined.

(** X2. When the search fails on an attempt on which no completion was
    attempted before, whether through the callback of [client.search] or
    through the ['error'] event of the response, the outer callback is called
    with that error and the client is destroyed without an unbind. *)
Theorem search_failure_is_an_error
    (v : LdapValidator) (u p : jsval) (tr : list event) (e : ldaperr) :
  rejected u = false -> rejected p = false ->
  series (run tr (validate v u p)) = AtSearch ->
  notSent (run tr (validate v u p)) = true ->
  let ev := if resOpen (run tr (validate v u p)) then ResError e
            else SearchReply (Some e) in
  called (handle ev (run tr (validate v u p))) = [(Some e, None)]
  /\ ops (handle ev (run tr (validate v u p)))
     = [fst (_createClient v);
        Bind (JStr (bindDN (_options v))) (JStr (bindCredentials (_options v)));
        Search (base (_options v)) "sub" (search_filter v u);
        Destroy]
  /\ series (handle ev (run tr (validate v u p))) = SeriesDone.
Proof.
  intros Hu Hp Hser Hns. cbv zeta.
  destruct (accepted_run v u p tr Hu Hp) as (Hinv & Hs & Hun & Hpw).
  destruct (series_steps _ Hinv Hns) as (_ & H1 & H2 & _).
  unfold service_bind, the_search in H1, H2. rewrite Hs, Hun in H1, H2.
  destruct (resOpen _) eqn:Hro; [by apply H2 | by apply H1].
Qed.

Lemma search_failure_is_an_error_witness :
  called (handle (ResError timeout_error)
            (run [BindReply None; SearchReply None; SearchEntry alice]
               (validate sample_validator (JStr "alice") (JStr "secret"))))
  = [(Some timeout_error, None)].
Proof.
  pose proof (search_failure_is_an_error sample_validator (JStr "alice") (JStr "secret")
                [BindReply None; SearchReply None; SearchEntry alice] timeout_error
                eq_refl eq_refl eq_refl eq_refl) as H.
  cbv zeta in H. destruct H as (H & _). exact H.
Defined.



(** X4. After a successful unbind with a decoded entry whose [dn] is truthy,
    the verification bind is issued with that [dn] and the password the
    caller supplied, and the step reports nothing to the caller; if no
    completion was delivered before, the outer callback has not been called
    and the operations issued are the five of the series. *)
Theorem verification_bind_issued
    (v : LdapValidator) (u p : jsval) (tr : list event) (prof : profile) :
  series (run tr (validate v u p)) = AtUnbind ->
  userProfile (run tr (validate v u p)) = Some prof ->
  truthy (profile_dn prof) = true ->
  let s := run tr (validate v u p) in
  let s' := handle (UnbindReply None) s in
  series s' = AtValidate
  /\ called s' = called s
  /\ ops s' = (ops s ++ [Bind (profile_dn prof) p])%list
  /\ (notSent s = true ->
      called s' = []
      /\ ops s' = [fst (_createClient v);
                   Bind (JStr (bindDN (_options v))) (JStr (bindCredentials (_options v)));
                   Search (base (_options v)) "sub" (search_filter v u);
                   Unbind; Bind (profile_dn prof) p]).
Proof.
  intros Hser Hprof Ht. cbv zeta.
  destruct (validate_cases v u p tr) as [Hf|(Hu & Hp & _)];
    [rewrite Hf in Hser; discriminate Hser|].
  destruct (accepted_run v u p tr Hu Hp) as (Hinv & Hs & Hun & Hpw).
  destruct (unbind_steps _ Hinv Hser) as (_ & H & _ & Hops).
  destruct (H prof Hprof Ht) as (H1 & H2 & H3). rewrite Hpw in H2.
  split; [done|]. split; [done|]. split; [done|].
  intros Hns. split.
  - rewrite H3. destruct Hinv as [_ Hl _ _ _ _ _ _ _]. rewrite Hns in Hl. by destruct Hl.
  - rewrite H2, (Hops Hns). unfold service_bind, the_search. by rewrite Hs, Hun.
Qed.

Lemma verification_bind_issued_witness :
  ops (handle (UnbindReply None)
         (run [BindReply None; SearchReply None; SearchEntry alice; ResEnd]
            (validate sample_validator (JStr "alice") (JStr "secret"))))
  = [CreateClient "ldap://dc.example.com" 10 false;
     Bind (JStr "CN=svc,DC=example,DC=com") (JStr "svc-secret");
     Search "DC=example,DC=com" "sub"
       "(&(objectclass=user)(|(sAMAccountName=alice)(UserPrincipalName=alice)))";
     Unbind; Bind (JStr "CN=Alice,DC=example,DC=com") (JStr "secret")].
Proof.
  assert (H1 : series (run [BindReply None; SearchReply None; SearchEntry alice; ResEnd]
                         (validate sample_validator (JStr "alice") (JStr "secret")))
               = AtUnbind) by (vm_compute; reflexivity).
  assert (H2 : notSent (run [BindReply None; SearchReply None; SearchEntry alice; ResEnd]
                          (validate sample_validator (JStr "alice") (JStr "secret")))
               = true) by (vm_compute; reflexivity).
  assert (H3 : userProfile
                 (run [BindReply None; SearchReply None; SearchEntry alice; ResEnd]
                    (validate sample_validator (JStr "alice") (JStr "secret")))
               = Some alice_profile) by (vm_compute; reflexivity).
  assert (H4 : truthy (profile_dn alice_profile) = true) by (vm_compute; reflexivity).
  pose proof (verification_bind_issued sample_validator (JStr "alice")
                (JStr "secret") _ alice_profile H1 H3 H4) as H.
  cbv zeta in H. destruct H as (_ & _ & _ & H). destruct (H H2) as [_ H5].
  rewrite H5. vm_compute. reflexivity.
Defined.

(** X5. After a successful unbind with a decoded entry whose [dn] is falsy
    (an empty distinguished name), the series ends: the client is destroyed
    and no verification bind is issued then or later; the outer callback is
    called with no error and no profile if no completion was delivered
    before, and is not called otherwise. *)
Theorem falsy_dn_not_authenticated
    (v : LdapValidator) (u p : jsval) (tr : list event) (prof : profile) :
  series (run tr (validate v u p)) = AtUnbind ->
  userProfile (run tr (validate v u p)) = Some prof ->
  truthy (profile_dn prof) = false ->
  let s := run tr (validate v u p) in
  let s' := handle (UnbindReply None) s in
  series s' = SeriesDone
  /\ ops s' = (ops s ++ [Destroy])%list
  /\ (forall tr', directory_ops (run tr' s') = directory_ops s)
  /\ called s' = (if notSent s then [(None, None)] else called s)
  /\ (notSent s = true ->
      ops s' = [fst (_createClient v);
                Bind (JStr (bindDN (_options v))) (JStr (bindCredentials (_options v)));
                Search (base (_options v)) "sub" (search_filter v u);
                Unbind; Destroy]).
Proof.
  intros Hser Hprof Ht. cbv zeta.
  destruct (validate_cases v u p tr) as [Hf|(Hu & Hp & _)];
    [rewrite Hf in Hser; discriminate Hser|].
  destruct (accepted_run v u p tr Hu Hp) as (Hinv & Hs & Hun & Hpw).
  destruct (unbind_steps _ Hinv Hser) as (_ & _ & H & Hops).
  destruct H as (H1 & H2 & H3); [right; by exists prof|].
  split; [done|]. split; [done|]. split.
  { intros tr'. destruct (finished_run tr' _ (handle_inv _ _ Hinv) H1) as [_ ->].
    unfold directory_ops. rewrite H2, filter_app. simpl. by rewrite app_nil_r. }
  split; [done|].
  intros Hns. rewrite H2, (Hops Hns). unfold service_bind, the_search.
  by rewrite Hs, Hun.
Qed.

Lemma falsy_dn_not_authenticated_witness :
  called (handle (UnbindReply None)
            (run [BindReply None; SearchReply None; SearchEntry empty_dn_entry; ResEnd]
               (validate sample_validator (JStr "root") (JStr "secret"))))
  = [(None, None)].
Proof.
  assert (H1 : series (run [BindReply None; SearchReply None; SearchEntry empty_dn_entry;
                            ResEnd]
                         (validate sample_validator (JStr "root") (JStr "secret")))
               = AtUnbind) by (vm_compute; reflexivity).
  assert (H3 : userProfile
                 (run [BindReply None; SearchReply None; SearchEntry empty_dn_entry;
                       ResEnd]
                    (validate sample_validator (JStr "root") (JStr "secret")))
               = Some empty_dn_profile) by (vm_compute; reflexivity).
  assert (H4 : truthy (profile_dn empty_dn_profile) = false) by (vm_compute; reflexivity).
  pose proof (falsy_dn_not_authenticated sample_validator (JStr "root")
                (JStr "secret") _ empty_dn_profile H1 H3 H4) as H.
  cbv zeta in H. destruct H as (_ & _ & _ & H & _).
  rewrite H. vm_compute. reflexivity.
Defined.

(** X6. When the verification bind succeeds on an attempt on which no
    completion was attempted before, the outer callback is called with no
    error and the profile decoded from the first entry of the search; the
    client is destroyed once. *)
Theorem verify_success_authenticated
    (v : LdapValidator) (u p : jsval) (tr : list event) :
  series (run tr (validate v u p)) = AtValidate ->
  notSent (run tr (validate v u p)) = true ->
  exists prof e0 rest,
    entries (run tr (validate v u p)) = e0 :: rest
    /\ decodeSearchEntry e0 = Return prof
    /\ called (handle (VerifyReply None) (run tr (validate v u p))) = [(None, Some prof)]
    /\ ops (handle (VerifyReply None) (run tr (validate v u p)))
       = [fst (_createClient v);
          Bind (JStr (bindDN (_options v))) (JStr (bindCredentials (_options v)));
          Search (base (_options v)) "sub" (search_filter v u);
          Unbind; Bind (profile_dn prof) p; Destroy].
Proof.
  intros Hser Hns.
  destruct (validate_cases v u p tr) as [Hf|(Hu & Hp & _)];
    [rewrite Hf in Hser; discriminate Hser|].
  destruct (accepted_run v u p tr Hu Hp) as (Hinv & Hs & Hun & Hpw).
  destruct (series_steps _ Hinv Hns) as (_ & _ & _ & _ & _ & _ & H).
  destruct (H Hser) as (prof & e0 & rest & _ & He & Hd & H1 & _ & H2).
  unfold service_bind, the_search in H2. rewrite Hs, Hun, Hpw in H2.
  exists prof, e0, rest. by repeat split.
Qed.

Lemma verify_success_authenticated_witness :
  List.length
    (called (handle (VerifyReply None)
               (run [BindReply None; SearchReply None; SearchEntry alice; ResEnd;
                     UnbindReply None]
                  (validate sample_validator (JStr "alice") (JStr "secret"))))) = 1.
Proof.
  assert (H1 : series (run [BindReply None; SearchReply None; SearchEntry alice; ResEnd;
                            UnbindReply None]
                         (validate sample_validator (JStr "alice") (JStr "secret")))
               = AtValidate) by (vm_compute; reflexivity).
  assert (H2 : notSent (run [BindReply None; SearchReply None; SearchEntry alice; ResEnd;
                             UnbindReply None]
                          (validate sample_validator (JStr "alice") (JStr "secret")))
               = true) by (vm_compute; reflexivity).
  destruct (verify_success_authenticated sample_validator (JStr "alice") (JStr "secret")
              _ H1 H2) as (prof & e0 & rest & _ & _ & Hc & _).
  rewrite Hc. reflexivity.
Defined.

(** X7. Once the series has ended, whatever events arrive afterwards, it
    stays ended and nothing further is sent to the directory. *)
Theorem finished_series_is_silent
    (v : LdapValidator) (u p : jsval) (tr tr' : list event) :
  series (run tr (validate v u p)) = SeriesDone ->
  series (run (tr ++ tr') (validate v u p)) = SeriesDone
  /\ directory_ops (run (tr ++ tr') (validate v u p))
     = directory_ops (run tr (validate v u p)).
Proof.
  intros Hser. rewrite run_app.
  destruct (validate_cases v u p tr) as [Hf|(_ & _ & Hinv)];
    [rewrite Hf in Hser; discriminate Hser|].
  by apply finished_run.
Qed.

Lemma finished_series_is_silent_witness :
  directory_ops
    (run ([BindReply None; SearchReply (Some timeout_error)]
          ++ [SearchReply None; SearchEntry alice; ResEnd; UnbindReply None])
       (validate sample_validator (JStr "alice") (JStr "secret")))
  = directory_ops
      (run [BindReply None; SearchReply (Some timeout_error)]
         (validate sample_validator (JStr "alice") (JStr "secret"))).
Proof.
  exact (proj2 (finished_series_is_silent sample_validator (JStr "alice") (JStr "secret")
                  [BindReply None; SearchReply (Some timeout_error)]
                  [SearchReply None; SearchEntry alice; ResEnd; UnbindReply None]
                  eq_refl)).
Defined.

Lemma response_after_cb (ev : event) (s : attempt) :
  notCbSent s = false -> is_response ev = true ->
  notCbSent (handle ev s) = false
  /\ series (handle ev s) = series s /\ ops (handle ev s) = ops s
  /\ called (handle ev s) = called s /\ notSent (handle ev s) = notSent s
  /\ isAuthenticated (handle ev s) = isAuthenticated s.
Proof.
  split_state s. simpl. intros -> Hev.
  destruct ev; try discriminate Hev; unfold handle, _cb; simpl;
    repeat case_match; by repeat split.
Qed.

(** X8. The callback of the search task is called once: after the search has
    reported its result (an end or an error of the response, or an error of
    the search itself), further events of the response neither move the
    series, nor issue an operation, nor call the outer callback. *)
Theorem search_reports_once
    (v : LdapValidator) (u p : jsval) (tr evs : list event) :
  notCbSent (run tr (validate v u p)) = false ->
  Forall (fun ev => is_response ev = true) evs ->
  series (run (tr ++ evs) (validate v u p)) = series (run tr (validate v u p))
  /\ ops (run (tr ++ evs) (validate v u p)) = ops (run tr (validate v u p))
  /\ called (run (tr ++ evs) (validate v u p)) = called (run tr (validate v u p))
  /\ isAuthenticated (run (tr ++ evs) (validate v u p))
     = isAuthenticated (run tr (validate v u p)).
Proof.
  intros Hcb Hevs. rewrite run_app.
  generalize dependent (run tr (validate v u p)). intros s Hcb.
  revert s Hcb. induction Hevs as [|ev evs Hev _ IH]; intros s Hcb; simpl; [done|].
  destruct (response_after_cb ev s Hcb Hev) as (H1 & H2 & H3 & H4 & _ & H6).
  destruct (IH _ H1) as (-> & -> & -> & ->). by repeat split.
Qed.

Lemma search_reports_once_witness :
  ops (run ([BindReply None; SearchReply None; ResError timeout_error]
            ++ [SearchEntry alice; ResEnd; ResError timeout_error])
         (validate sample_validator (JStr "alice") (JStr "secret")))
  = ops (run [BindReply None; SearchReply None; ResError timeout_error]
           (validate sample_validator (JStr "alice") (JStr "secret"))).
Proof.
  refine (proj1 (proj2 (search_reports_once sample_validator (JStr "alice")
                          (JStr "secret")
                          [BindReply None; SearchReply None; ResError timeout_error]
                          [SearchEntry alice; ResEnd; ResError timeout_error]
                          eq_refl _))).
  repeat constructor.
Defined.

Lemma handle_client (ev : event) (s : attempt) : client (handle ev s) = client s.
Proof.
  split_state s.
  destruct ev; unfold handle, _cb, series_cb, validate_task, _callback, search, unbind;
    simpl; repeat case_match; reflexivity.
Qed.

Lemma handle_suppressed (rc : bool) (ev : event) (s : attempt) :
  (forall c, client s = Some c -> client_reconnect c = rc) ->
  suppressed rc ev = true -> handle ev s = s.
Proof.
  intros Hc Hev. destruct ev; try discriminate Hev. simpl in Hev.
  unfold handle. destruct (client s) as [c|] eqn:E; [|reflexivity].
  by rewrite (Hc c eq_refl), Hev.
Qed.

Lemma run_drop_suppressed (rc : bool) (tr : list event) (s : attempt) :
  (forall c, client s = Some c -> client_reconnect c = rc) ->
  run tr s = run (filter (fun ev => suppressed rc ev = false) tr) s.
Proof.
  revert s. induction tr as [|ev tr IH]; intros s Hc; [reflexivity|].
  rewrite filter_cons.
  destruct (decide (suppressed rc ev = false)) as [E|E]; simpl.
  - apply IH. intros c. rewrite handle_client. apply Hc.
  - apply not_false_is_true in E. rewrite (handle_suppressed rc ev s Hc E). by apply IH.
Qed.

(** X9. The connection resets that the ['error'] listener drops (errno
    ECONNRESET while the client reconnects by itself) leave no trace: the
    attempt ends in the same state as if they had not occurred. *)
Theorem suppressed_resets_leave_no_trace
    (v : LdapValidator) (u p : jsval) (tr : list event) :
  run tr (validate v u p)
  = run (filter (fun ev => suppressed (reconnect (_options v)) ev = false) tr)
      (validate v u p).
Proof.
  apply run_drop_suppressed. intros c.
  unfold validate. destruct (rejected u), (rejected p); simpl; try discriminate.
  by intros [= <-].
Qed.

(** ** validate: what the outcome owes to the events *)

Opaque _createClient.

Lemma profile_stable (ev : event) (s : attempt) (prof : profile) :
  inv s -> userProfile s = Some prof -> userProfile (handle ev s) = Some prof.
Proof.
  intros [Hc Hl Ha Hs Hf Hr Hp He Ho] Hup.
  destruct (He _ Hup) as (e0 & rest & Hes & Hd).
  split_state s. simpl in *. subst cl up es.
  destruct ev; unfold handle, _cb, series_cb, validate_task, _callback, search, unbind;
    simpl; repeat case_match; simpl in *; subst; try discriminate;
    use_hyps; try congruence.
Qed.

Lemma entries_step (P : entry -> Prop) (ev : event) (s : attempt) :
  Forall P (entries s) -> (forall e, ev = SearchEntry e -> P e) ->
  Forall P (entries (handle ev s)).
Proof.
  intros H HP. split_state s. simpl in *.
  destruct ev; unfold handle, _cb, series_cb, validate_task, _callback, search, unbind;
    simpl; repeat case_match; simpl; try done.
  apply Forall_app. split; [done|]. constructor; [by apply HP | constructor].
Qed.

Lemma auth_step (ev : event) (s : attempt) :
  inv s -> isAuthenticated (handle ev s) = true ->
  isAuthenticated s = true
  \/ (ev = VerifyReply None /\ notSent (handle ev s) = false
      /\ exists prof, userProfile (handle ev s) = Some prof).
Proof.
  intros [Hc Hl Ha Hs Hf Hr Hp He Ho].
  split_state s. simpl in *. subst cl.
  destruct ev; unfold handle, _cb, series_cb, validate_task, _callback, search, unbind;
    simpl; repeat case_match; simpl in *; subst; try discriminate; auto.
  all: intros _; right; destruct (Hp eq_refl) as (prof & -> & _); eauto.
Qed.

Lemma called_step (ev : event) (s : attempt) :
  inv s -> (isAuthenticated s = true -> notSent s = false) ->
  called (handle ev s) = called s
  \/ (exists err, called (handle ev s) = (called s ++ [(err, None)])%list)
  \/ (called (handle ev s) = (called s ++ [(None, userProfile (handle ev s))])%list
      /\ isAuthenticated (handle ev s) = true).
Proof.
  intros [Hc Hl Ha Hs Hf Hr Hp He Ho] Hau.
  split_state s. simpl in *. subst cl.
  destruct ev; unfold handle, _cb, series_cb, validate_task, _callback, search, unbind;
    simpl; repeat case_match; simpl in *; subst; try discriminate;
    use_hyps; try congruence; eauto.
Qed.

Lemma ops_step (ev : event) (s : attempt) :
  inv s ->
  exists new, ops (handle ev s) = (ops s ++ new)%list
              /\ Forall (good_op (handle ev s)) new.
Proof.
  intros [Hc Hl Ha Hs Hf Hr Hp He Ho].
  split_state s. simpl in *. subst cl.
  destruct ev; unfold handle, _cb, series_cb, validate_task, _callback, search, unbind;
    simpl; repeat case_match; simpl in *; subst; try discriminate;
    repeat match goal with
           | H : negb _ = false |- _ => apply negb_false_iff in H
           end.
  all: try (by (exists []; rewrite app_nil_r)).
  all: try (by (eexists [_]; split; [reflexivity | constructor; [exact I | constructor]])).
  all: try (by (eexists [_]; split; [reflexivity | constructor; [reflexivity | constructor]])).
  all: try (by (eexists [_; _]; split;
                  [reflexivity | constructor; [exact I | constructor; [exact I | constructor]]])).
  all: eexists [_]; (split; [reflexivity|]); (constructor; [|constructor]);
    right; (split; [reflexivity|]); (split; [assumption|]);
    eexists; split; reflexivity.
Qed.

Lemma good_op_stable (ev : event) (s : attempt) (o : ldapop) :
  inv s -> good_op s o -> good_op (handle ev s) o.
Proof.
  intros Hinv. destruct (handle_args ev s) as (Hs & Hu & Hp).
  destruct o; simpl; unfold service_bind, the_search; rewrite ?Hs, ?Hu, ?Hp; try done.
  intros [H|(H1 & H2 & prof & H3 & H4)]; [by left | right].
  repeat split; try done. exists prof. split; [|done]. by apply profile_stable.
Qed.

Transparent _createClient.

Lemma hist_step (tr : list event) (ev : event) (s : attempt) :
  inv s -> hist tr s -> hist (tr ++ [ev]) (handle ev s).
Proof.
  intros Hinv [H1 H2 H3 H4]. split.
  - apply entries_step.
    + eapply Forall_impl; [exact H1|]. intros e He. apply in_or_app. by left.
    + intros e ->. apply in_or_app. right. by left.
  - intros Hau. destruct (auth_step ev s Hinv Hau) as [Hold|(-> & Hns & Hprof)].
    + destruct (H2 Hold) as (Hin & Hns & prof & Hprof).
      split; [apply in_or_app; by left|].
      split; [by apply handle_latched|].
      exists prof. by apply profile_stable.
    + split; [apply in_or_app; right; by left | done].
  - assert (Hstable : Forall (fun c : option ldaperr * option profile =>
                                forall prof, snd c = Some prof ->
                                  fst c = None /\ isAuthenticated (handle ev s) = true
                                  /\ userProfile (handle ev s) = Some prof)
                             (called s)).
    { eapply Forall_impl; [exact H3|]. intros c Hc prof Hprof.
      destruct (Hc prof Hprof) as (Ha & Hb & Hd). split; [done|].
      split; [|by apply profile_stable].
      destruct (H2 Hb) as (_ & Hns & _).
      destruct (handle_latched ev s Hns) as [_ Hcalled].
      destruct (isAuthenticated (handle ev s)) eqn:E; [done|].
      exfalso. revert E Hb. clear -Hns.
      split_state s. simpl in *. subst ns.
      destruct ev; unfold handle, _cb, series_cb, validate_task, _callback, search,
        unbind; simpl; repeat case_match; simpl; congruence. }
    destruct (called_step ev s Hinv (fun Hb => proj1 (proj2 (H2 Hb))))
      as [->|[[err ->]|[-> Hau]]]; [done | |].
    + apply Forall_app. split; [done|]. constructor; [|constructor].
      intros prof. discriminate.
    + apply Forall_app. split; [done|]. constructor; [|constructor].
      simpl. intros prof Hprof. by repeat split.
  - destruct (ops_step ev s Hinv) as (new & -> & Hnew).
    apply Forall_app. split; [|done].
    eapply Forall_impl; [exact H4|]. intros o. by apply good_op_stable.
Qed.

Lemma hist_validate (v : LdapValidator) (u p : jsval) :
  rejected u = false -> rejected p = false -> hist [] (validate v u p).
Proof.
  intros Hu Hp. unfold validate. rewrite Hu, Hp. simpl.
  split; simpl; try done.
  repeat constructor.
Qed.

Lemma hist_run (v : LdapValidator) (u p : jsval) (tr : list event) :
  rejected u = false -> rejected p = false -> hist tr (run tr (validate v u p)).
Proof.
  intros Hu Hp. induction tr as [|ev tr IH] using rev_ind; [by apply hist_validate|].
  rewrite run_app. simpl. apply hist_step; [|exact IH].
  apply run_inv. by apply validate_accepted.
Qed.

Lemma rejected_false (x : jsval) :
  rejected x = false -> exists s, x = JStr s /\ s <> "".
Proof.
  destruct x; try discriminate. simpl. intros H. exists s. split; [done|].
  intros ->. discriminate H.
Qed.

(** Where a delivered profile comes from. *)
Lemma profile_provenance
    (v : LdapValidator) (u p : jsval) (tr : list event)
    (e : option ldaperr) (prof : profile) :
  In (e, Some prof) (called (run tr (validate v u p))) ->
  e = None /\ In (VerifyReply None) tr
  /\ exists e0, In (SearchEntry e0) tr /\ decodeSearchEntry e0 = Return prof.
Proof.
  intros Hin.
  destruct (validate_cases v u p tr) as [Hf|(Hu & Hp & Hinv)];
    [rewrite Hf in Hin; destruct Hin|].
  destruct (hist_run v u p tr Hu Hp) as [H1 H2 H3 _].
  rewrite List.Forall_forall in H3.
  destruct (H3 _ Hin prof eq_refl) as (He & Hau & Hprof). simpl in He.
  destruct (H2 Hau) as (Hv & _).
  destruct (inv_entries _ Hinv _ Hprof) as (e0 & rest & Hes & Hd).
  rewrite Hes in H1. inversion H1; subst. eauto.
Qed.

(** X10. The outer callback receives a profile only without an error, only
    after the verification bind has succeeded, and the profile is the decoding
    of an entry that the search delivered. *)
Theorem profile_only_after_verification
    (v : LdapValidator) (u p : jsval) (tr : list event)
    (e : option ldaperr) (prof : profile) :
  In (e, Some prof) (called (run tr (validate v u p))) ->
  e = None /\ In (VerifyReply None) tr
  /\ exists e0, In (SearchEntry e0) tr /\ decodeSearchEntry e0 = Return prof.
Proof. apply profile_provenance. Qed.

Lemma profile_only_after_verification_witness :
  In (VerifyReply None)
     [BindReply None; SearchReply None; SearchEntry alice; ResEnd; UnbindReply None;
      VerifyReply None].
Proof.
  assert (Hc : called (run [BindReply None; SearchReply None; SearchEntry alice; ResEnd;
                            UnbindReply None; VerifyReply None]
                         (validate sample_validator (JStr "alice") (JStr "secret")))
               = [(None, Some alice_profile)]) by (vm_compute; reflexivity).
  refine (proj1 (proj2 (profile_only_after_verification sample_validator (JStr "alice")
                          (JStr "secret") _ None alice_profile _))).
  rewrite Hc. left. reflexivity.
Defined.

(** X11. Every bind that an attempt issues is either the bind of the service
    account or a bind with the password the caller supplied, a non-empty
    string, under the truthy [dn] of the decoding of an entry that the search
    delivered: no bind is ever issued with an empty password or without a
    found entry. *)
Theorem binds_are_guarded
    (v : LdapValidator) (u p : jsval) (tr : list event) (d c : jsval) :
  In (Bind d c) (ops (run tr (validate v u p))) ->
  (d = JStr (bindDN (_options v)) /\ c = JStr (bindCredentials (_options v)))
  \/ (c = p /\ (exists pw, p = JStr pw /\ pw <> "") /\ truthy d = true
      /\ exists e0 prof, In (SearchEntry e0) tr /\ decodeSearchEntry e0 = Return prof
                         /\ d = profile_dn prof).
Proof.
  intros Hin.
  destruct (validate_cases v u p tr) as [Hf|(Hu & Hp & Hinv)];
    [rewrite Hf in Hin; destruct Hin|].
  destruct (hist_run v u p tr Hu Hp) as [H1 _ _ H4].
  destruct (accepted_run v u p tr Hu Hp) as (_ & Hs & _ & Hpw).
  rewrite List.Forall_forall in H4. specialize (H4 _ Hin). simpl in H4.
  unfold service_bind in H4. rewrite Hs, Hpw in H4.
  destruct H4 as [[= -> ->]|(-> & Ht & prof & Hprof & ->)]; [by left | right].
  split; [done|]. split; [by apply rejected_false|]. split; [done|].
  destruct (inv_entries _ Hinv _ Hprof) as (e0 & rest & Hes & Hd).
  rewrite Hes in H1. inversion H1; subst. eauto.
Qed.

Lemma binds_are_guarded_witness :
  (JStr "CN=Alice,DC=example,DC=com" = JStr (bindDN (_options sample_validator))
   /\ JStr "secret" = JStr (bindCredentials (_options sample_validator)))
  \/ (JStr "secret" = JStr "secret"
      /\ (exists pw, JStr "secret" = JStr pw /\ pw <> "")
      /\ truthy (JStr "CN=Alice,DC=example,DC=com") = true
      /\ exists e0 prof,
           In (SearchEntry e0)
              [BindReply None; SearchReply None; SearchEntry alice; ResEnd;
               UnbindReply None]
           /\ decodeSearchEntry e0 = Return prof
           /\ JStr "CN=Alice,DC=example,DC=com" = profile_dn prof).
Proof.
  refine (binds_are_guarded sample_validator (JStr "alice") (JStr "secret")
            [BindReply None; SearchReply None; SearchEntry alice; ResEnd;
             UnbindReply None] _ _ _).
  vm_compute. do 4 right. left. reflexivity.
Defined.

(** X12. Every search that an attempt issues is under the configured base,
    with scope [sub] and the filter built from the template and the username. *)
Theorem searches_use_the_filter
    (v : LdapValidator) (u p : jsval) (tr : list event) (b sc f : string) :
  In (Search b sc f) (ops (run tr (validate v u p))) ->
  b = base (_options v) /\ sc = "sub" /\ f = search_filter v u.
Proof.
  intros Hin.
  destruct (validate_cases v u p tr) as [Hf|(Hu & Hp & Hinv)];
    [rewrite Hf in Hin; destruct Hin|].
  destruct (hist_run v u p tr Hu Hp) as [_ _ _ H4].
  destruct (accepted_run v u p tr Hu Hp) as (_ & Hs & Hun & _).
  rewrite List.Forall_forall in H4. specialize (H4 _ Hin). simpl in H4.
  unfold the_search in H4. rewrite Hs, Hun in H4. by injection H4 as -> -> ->.
Qed.

Lemma searches_use_the_filter_witness :
  "(&(objectclass=user)(|(sAMAccountName=alice)(UserPrincipalName=alice)))"
  = search_filter sample_validator (JStr "alice").
Proof.
  refine (proj2 (proj2 (searches_use_the_filter sample_validator (JStr "alice")
                          (JStr "secret") [BindReply None]
                          "DC=example,DC=com" "sub" _ _))).
  vm_compute. do 2 right. left. reflexivity.
Defined.

(** ** validate: the order of the operations *)

Opaque _createClient.

Lemma ordered_step (ev : event) (s : attempt) :
  inv s -> ordered s -> ordered (handle ev s).
Proof.
  intros Hinv (n & Hn & Hops & Hprof).
  destruct (series s) eqn:Hser.
  5: {
    destruct (finished_step ev s Hinv Hser) as [H1 H2].
    exists n. rewrite H1, H2, Hops. split; [done|]. split.
    - unfold full_script, service_bind, the_search, verify_bind.
      destruct (handle_args ev s) as (-> & -> & ->).
      destruct (decide (n = 5)) as [->|Hne].
      + destruct (Hprof eq_refl) as [prof Hp].
        by rewrite Hp, (profile_stable ev s prof Hinv Hp).
      + simpl in Hn. do 5 (destruct n as [|n]; [done|]). lia.
    - intros Hn5. destruct (Hprof Hn5) as [prof Hp]. exists prof.
      by apply profile_stable. }
  all: simpl in Hn; subst n.
  all: destruct Hinv as [Hc Hl Ha Hs Hf Hr Hp He Ho].
  all: split_state s; unfold ordered, directory_ops, full_script, service_bind,
         the_search, verify_bind in *; simpl in *; subst cl ph.
  all: destruct ev; unfold handle, _cb, series_cb, validate_task, _callback, search,
         unbind; simpl; repeat case_match; simpl in *; subst; try discriminate;
         rewrite ?filter_app, ?Hops; simpl.
  all: use_hyps; subst; try congruence.
  all: try (by (exists 2; split; [first [done | lia]|];
                split; [reflexivity|]; intros; discriminate)).
  all: try (by (exists 3; split; [first [done | lia]|];
                split; [reflexivity|]; intros; discriminate)).
  all: try (by (exists 4; split; [first [done | lia]|];
                split; [reflexivity|]; intros; discriminate)).
  all: try (by (exists 5; split; [first [done | lia]|];
                split; [reflexivity|]; intros _; eauto)).
  all: destruct (He _ eq_refl) as (e0 & rest & E & D); simplify_eq/=.
  all: match goal with
       | H1 : decodeSearchEntry ?e = Return ?a,
         H2 : decodeSearchEntry ?e = Return ?x |- _ =>
         assert (a = x) by congruence; subst
       end.
  all: exists 5; split; [done|]; split; [reflexivity|]; intros _; eauto.
Qed.

Transparent _createClient.

Lemma ordered_run (tr : list event) (s : attempt) :
  inv s -> ordered s -> ordered (run tr s).
Proof.
  revert s. induction tr as [|ev tr IH]; intros s Hinv Hord; simpl; [done|].
  apply IH; [by apply handle_inv | by apply ordered_step].
Qed.

(** X13. The operations sent to the directory are always an initial segment
    of: create the client, bind the service account, search, unbind, bind as
    the found entry with the caller's password.  Each is sent at most once
    and none before the ones ahead of it, whatever events arrive and in
    whatever order. *)
Theorem operations_in_order (v : LdapValidator) (u p : jsval) (tr : list event) :
  rejected u = false -> rejected p = false ->
  exists n,
    2 <= n <= 5
    /\ directory_ops (run tr (validate v u p))
       = take n [fst (_createClient v);
                 Bind (JStr (bindDN (_options v))) (JStr (bindCredentials (_options v)));
                 Search (base (_options v)) "sub" (search_filter v u);
                 Unbind;
                 Bind (from_option profile_dn JUndefined
                         (userProfile (run tr (validate v u p)))) p].
Proof.
  intros Hu Hp.
  destruct (validate_accepted v u p Hu Hp) as (Hinv & Hs & Hser & Hns).
  assert (Hord : ordered (validate v u p)).
  { exists 2. rewrite Hser. split; [done|]. split; [|intros; discriminate].
    unfold validate. by rewrite Hu, Hp. }
  destruct (ordered_run tr _ Hinv Hord) as (n & Hn & Hops & _).
  destruct (accepted_run v u p tr Hu Hp) as (_ & Hs' & Hun & Hpw).
  exists n. split.
  - unfold reached in Hn. destruct (series (run tr (validate v u p))); lia.
  - rewrite Hops. unfold full_script, service_bind, the_search, verify_bind.
    by rewrite Hs', Hun, Hpw.
Qed.

Lemma operations_in_order_witness :
  List.length
    (directory_ops
       (run [ClientError timeout_error; BindReply None; SearchReply None]
          (validate sample_validator (JStr "alice") (JStr "secret")))) <= 5.
Proof.
  destruct (operations_in_order sample_validator (JStr "alice") (JStr "secret")
              [ClientError timeout_error; BindReply None; SearchReply None]
              eq_refl eq_refl) as (n & Hn & ->).
  rewrite length_take. simpl. lia.
Defined.

(** ** validate: a search without entries *)

Opaque _createClient.

Lemma awaiting_unbind_step (ev : event) (s : attempt) :
  inv s -> series s = AtUnbind -> userProfile s = None ->
  is_response ev = false -> is_unbind_reply ev = false ->
  series (handle ev s) = AtUnbind /\ userProfile (handle ev s) = None
  /\ directory_ops (handle ev s) = directory_ops s.
Proof.
  intros [Hc Hl Ha Hs Hf Hr Hp He Ho] Hser Hup.
  split_state s. unfold directory_ops. simpl in *. subst cl ph up.
  destruct ev; try discriminate; intros _ _;
    unfold handle, _cb, series_cb, validate_task, _callback, search, unbind;
    simpl; repeat case_match; simpl in *; subst; try discriminate;
    rewrite ?filter_app, ?app_nil_r; by repeat split.
Qed.

Lemma end_of_empty_search (s : attempt) :
  inv s -> resOpen s = true -> notCbSent s = true -> entries s = [] ->
  series (handle ResEnd s) = AtUnbind /\ userProfile (handle ResEnd s) = None.
Proof.
  intros [Hc Hl Ha Hs Hf Hr Hp He Ho] Hro Hncs Hes.
  split_state s. simpl in *. subst cl ro ncs es.
  destruct (Hs eq_refl) as (-> & Hser). rewrite (Hser eq_refl) in *.
  unfold handle, _cb, series_cb, unbind. simpl. done.
Qed.

(** A completion before the series has ended comes from a client error. *)
Lemma early_completion_step (ev : event) (s : attempt) :
  inv s ->
  (series s <> SeriesDone -> notSent s = false -> exists e, called s = [(Some e, None)]) ->
  series (handle ev s) <> SeriesDone -> notSent (handle ev s) = false ->
  exists e, called (handle ev s) = [(Some e, None)].
Proof.
  intros [Hc Hl Ha Hs Hf Hr Hp He Ho] H.
  split_state s. simpl in *. subst cl.
  destruct ev; unfold handle, _cb, series_cb, validate_task, _callback, search, unbind;
    simpl; repeat case_match; simpl in *; subst; try discriminate; try done;
    intros; use_hyps; subst; try discriminate; try done; try (by eexists); eauto.
  all: match goal with
       | Ha : ?P -> true = false, H : ?P |- _ => discriminate (Ha H)
       end.
Qed.

Transparent _createClient.

Lemma awaiting_unbind_run (mid : list event) (s : attempt) :
  inv s -> series s = AtUnbind -> userProfile s = None ->
  Forall (fun ev => is_response ev = false /\ is_unbind_reply ev = false) mid ->
  series (run mid s) = AtUnbind /\ userProfile (run mid s) = None
  /\ directory_ops (run mid s) = directory_ops s.
Proof.
  revert s. induction mid as [|ev mid IH]; intros s Hinv Hser Hup Hall; simpl; [done|].
  inversion Hall as [|? ? [H1 H2] Hmid]; subst.
  destruct (awaiting_unbind_step ev s Hinv Hser Hup H1 H2) as (H3 & H4 & H5).
  destruct (IH _ (handle_inv ev s Hinv) H3 H4 Hmid) as (H6 & H7 & H8).
  split; [done|]. split; [done | congruence].
Qed.

Lemma early_completion_run (tr : list event) (s : attempt) :
  inv s ->
  (series s <> SeriesDone -> notSent s = false -> exists e, called s = [(Some e, None)]) ->
  series (run tr s) <> SeriesDone -> notSent (run tr s) = false ->
  exists e, called (run tr s) = [(Some e, None)].
Proof.
  revert s. induction tr as [|ev tr IH]; intros s Hinv H; simpl; [exact H|].
  apply IH; [by apply handle_inv | by apply early_completion_step].
Qed.

Lemma latch_by_destroys (s : attempt) :
  inv s -> (destroys s = 0 -> notSent s = true) /\ (destroys s <> 0 -> notSent s = false).
Proof.
  intros [_ Hl _ _ _ _ _ _ _]. destruct (notSent s).
  - destruct Hl as (_ & -> & _). by split.
  - destruct Hl as [_ Hd]. split; [lia | done].
Qed.

Lemma ordered_validate (v : LdapValidator) (u p : jsval) :
  rejected u = false -> rejected p = false -> ordered (validate v u p).
Proof.
  intros Hu Hp. destruct (validate_accepted v u p Hu Hp) as (_ & _ & Hser & _).
  exists 2. rewrite Hser. split; [done|]. split; [|intros; discriminate].
  unfold validate. by rewrite Hu, Hp.
Qed.




(** Nor when a client error is delivered between the end of the search and
    the reply of the unbind: the caller has that error. *)
Example client_error_before_unbind_reply :
  called (run [BindReply None; SearchReply None; ResEnd; ClientError timeout_error;
               UnbindReply None]
              (validate sample_validator (JStr "nosuchuser") (JStr "anything")))
  = [(Some timeout_error, None)].
Proof. vm_compute. reflexivity. Qed.

(** ** decodeSearchEntry: the remaining branches *)

Lemma decodeAttribute_keeps (obj obj' : profile) (a : attribute) :
  decodeAttribute obj a = Return obj' ->
  (type a <> "__proto__" -> is_Some (obj' !! type a))
  /\ (type a = "__proto__" -> obj' = obj)
  /\ (forall k, is_Some (obj !! k) -> is_Some (obj' !! k)).
Proof.
  unfold decodeAttribute. destruct (select_item a) as [item|x]; simpl; [|discriminate].
  intros [= <-]. unfold set_property.
  destruct (String.eqb_spec (type a) "__proto__") as [Hp|Hp].
  - split; [done|]. by split.
  - split; [by rewrite lookup_insert_eq|]. split; [done|].
    intros k H. destruct (decide (type a = k)) as [<-|Hne].
    + by rewrite lookup_insert_eq.
    + by rewrite lookup_insert_ne.
Qed.

Lemma decodeAttributes_keep (l : list attribute) :
  forall obj obj' : profile,
    forEach l decodeAttribute obj = Return obj' ->
    (forall k, is_Some (obj !! k) -> is_Some (obj' !! k))
    /\ (forall a, In a l -> type a <> "__proto__" -> is_Some (obj' !! type a))
    /\ (obj !! "__proto__" = None -> obj' !! "__proto__" = None).
Proof.
  induction l as [|a l IH]; intros obj obj' H; simpl in H.
  - injection H as <-. split; [done|]. split; [intros a [] | done].
  - destruct (decodeAttribute obj a) as [obj1|x] eqn:E; simpl in H; [|discriminate].
    destruct (decodeAttribute_keeps _ _ _ E) as (H1 & H1' & H2).
    destruct (IH _ _ H) as (H3 & H4 & H5). split; [auto|]. split.
    + intros a' [<-|Hin]; auto.
    + intros Hn. apply H5.
      destruct (decide (type a = "__proto__")) as [Ht|Ht].
      * by rewrite (H1' Ht).
      * rewrite (decodeAttribute_lookup_ne _ _ _ _ E); [done | congruence].
Qed.

Lemma pushControls_keep (l : list control) :
  forall (obj obj' : profile) (k : string),
    forEach l pushControl obj = Return obj' ->
    is_Some (obj !! k) -> is_Some (obj' !! k).
Proof.
  induction l as [|c l IH]; intros obj obj' k H Hk; simpl in H.
  - by injection H as <-.
  - destruct (pushControl obj c) as [obj1|x] eqn:E; simpl in H; [|discriminate].
    apply (IH _ _ _ H). revert E. unfold pushControl.
    destruct (obj !! "controls") as [[]|]; try discriminate. intros [= <-].
    destruct (decide ("controls" = k)) as [<-|Hne].
    + by rewrite lookup_insert_eq.
    + by rewrite lookup_insert_ne.
Qed.

(** X14. Whenever the decoder returns, the profile has the keys [dn] and
    [controls] and a key for every attribute of the entry whose type is not
    [__proto__], and it has no key [__proto__]; [dn] is the distinguished
    name of the entry unless an attribute is called [dn], and [controls]
    holds the [json] of every control, in their order, unless an attribute is
    called [controls]. *)
Theorem decoded_keys (e : entry) (p : profile) :
  decodeSearchEntry e = Return p ->
  is_Some (p !! "dn") /\ is_Some (p !! "controls")
  /\ (forall a, In a (attributes e) -> type a <> "__proto__" -> is_Some (p !! type a))
  /\ p !! "__proto__" = None
  /\ (Forall (fun a => type a <> "dn") (attributes e) ->
      p !! "dn" = Some (JStr (dn e)))
  /\ (Forall (fun a => type a <> "controls") (attributes e) ->
      p !! "controls" = Some (JArr (json <$> controls e))).
Proof.
  unfold decodeSearchEntry.
  destruct (forEach (attributes e) decodeAttribute _) as [obj1|x] eqn:E1;
    simpl; [|discriminate].
  destruct (forEach (controls e) pushControl obj1) as [obj2|x] eqn:E2;
    simpl; [|discriminate].
  intros [= <-].
  destruct (decodeAttributes_keep _ _ _ E1) as (Hk & Ha & Hn).
  split; [apply (pushControls_keep _ _ _ _ E2), Hk; by rewrite lookup_insert_ne|].
  split; [apply (pushControls_keep _ _ _ _ E2), Hk; by rewrite lookup_insert_eq|].
  split; [intros a Hin Hne; apply (pushControls_keep _ _ _ _ E2); by apply Ha|].
  split; [rewrite (pushControls_lookup_ne _ _ _ _ E2) by done; by apply Hn|].
  split.
  - intros Hdn. rewrite (pushControls_lookup_ne _ _ _ _ E2) by done.
    rewrite (decodeAttributes_lookup_ne _ _ _ _ E1 Hdn).
    by rewrite lookup_insert_ne, lookup_insert_eq.
  - intros Hctl.
    destruct (pushControls_returns (controls e) obj1 []) as (p' & Hp' & Hc).
    { rewrite (decodeAttributes_lookup_ne _ _ _ _ E1 Hctl). by rewrite lookup_insert_eq. }
    rewrite E2 in Hp'. by injection Hp' as <-.
Qed.

Lemma decoded_keys_witness :
  alice_profile !! "dn" = Some (JStr (dn alice)).
Proof.
  refine (proj1 (proj2 (proj2 (proj2 (proj2 (decoded_keys alice alice_profile _))))) _).
  - vm_compute. reflexivity.
  - repeat constructor; discriminate.
Defined.

Lemma select_item_photo (a : attribute) :
  type a = "thumbnailPhoto" -> select_item a = Return (JArr (JBuffer <$> buffers a)).
Proof. intros H. unfold select_item. by rewrite H. Qed.

Lemma collapse_buffers (bs : list (list byte)) :
  collapse (JArr (JBuffer <$> bs)) = collapsed_buffers bs.
Proof. destruct bs as [|b [|b' bs]]; reflexivity. Qed.

(** X15. A [thumbnailPhoto] attribute is decoded from its buffers, not from
    its string values: no buffer gives [[]], one buffer gives that buffer,
    several give the array of the buffers; that is the value under
    [thumbnailPhoto] in the decoded entry when no later attribute has the
    same type. *)
Theorem decode_photo (a : attribute) :
  type a = "thumbnailPhoto" ->
  (forall obj : profile,
     decodeAttribute obj a
     = Return (<["thumbnailPhoto" := collapsed_buffers (buffers a)]> obj))
  /\ (forall (e : entry) (pre post : list attribute) (p : profile),
        attributes e = (pre ++ a :: post)%list ->
        Forall (fun a' => type a' <> "thumbnailPhoto") post ->
        decodeSearchEntry e = Return p ->
        p !! "thumbnailPhoto" = Some (collapsed_buffers (buffers a))).
Proof.
  intros Ht.
  assert (Hattr : forall obj : profile,
             decodeAttribute obj a
             = Return (<["thumbnailPhoto" := collapsed_buffers (buffers a)]> obj)).
  { intros obj. unfold decodeAttribute.
    rewrite (select_item_photo a Ht). simpl. rewrite collapse_buffers, Ht. reflexivity. }
  split; [exact Hattr|].
  intros e pre post p Hsplit Hpost. unfold decodeSearchEntry.
  rewrite Hsplit, forEach_app.
  destruct (forEach pre decodeAttribute _) as [obj1|x]; simpl; [|discriminate].
  rewrite Hattr. simpl.
  destruct (forEach post decodeAttribute _) as [obj2|x] eqn:E2; simpl; [|discriminate].
  destruct (forEach (controls e) pushControl obj2) as [obj3|x] eqn:E3; simpl; [|discriminate].
  intros [= <-].
  rewrite (pushControls_lookup_ne _ _ _ _ E3) by done.
  rewrite (decodeAttributes_lookup_ne _ _ _ _ E2 Hpost).
  by rewrite lookup_insert_eq.
Qed.

Lemma decode_photo_witness :
  decodeAttribute ∅ photo_attribute
  = Return (<["thumbnailPhoto" := JBuffer [x89; x50; x4e; x47]]> ∅).
Proof. exact (proj1 (decode_photo photo_attribute eq_refl) ∅). Defined.

Lemma collapse_string (s : string) :
  collapse (JStr s) = if String.eqb s "" then JArr [] else JStr s.
Proof. destruct s as [|c [|d s]]; reflexivity. Qed.

Lemma formatGuid_length_16 (b : list byte) :
  List.length b = 16 -> String.length (formatGuid b) = 36.
Proof.
  intros Hlen.
  do 16 (destruct b as [|? b]; [discriminate Hlen|]).
  destruct b; [clear Hlen | discriminate Hlen].
  by rewrite formatGuid_16.
Qed.

Lemma decodeAttribute_guid (a : attribute) (b : list byte) (rest : list (list byte))
    (obj : profile) :
  type a = "objectGUID" -> buffers a = b :: rest ->
  decodeAttribute obj a
  = Return (<["objectGUID" := if String.eqb (formatGuid b) ""
                              then JArr [] else JStr (formatGuid b)]> obj).
Proof.
  intros Ht Hb. unfold decodeAttribute, select_item. rewrite Ht, Hb. simpl.
  rewrite collapse_string. reflexivity.
Qed.

Lemma decodeAttribute_guid_16 (a : attribute) (b : list byte) (rest : list (list byte))
    (obj : profile) :
  type a = "objectGUID" -> buffers a = b :: rest -> List.length b = 16 ->
  decodeAttribute obj a = Return (<["objectGUID" := JStr (formatGuid b)]> obj).
Proof.
  intros Ht Hb Hlen. rewrite (decodeAttribute_guid a b rest obj Ht Hb).
  destruct (String.eqb_spec (formatGuid b) "") as [E|_]; [|reflexivity].
  pose proof (formatGuid_length_16 b Hlen) as H36. rewrite E in H36. discriminate H36.
Qed.

Lemma decodeAttribute_default (a : attribute) (obj : profile) :
  type a <> "thumbnailPhoto" -> type a <> "objectGUID" -> type a <> "__proto__" ->
  decodeAttribute obj a = Return (<[type a := collapsed (vals a)]> obj).
Proof.
  intros H1 H2 H3. unfold decodeAttribute.
  rewrite (select_item_default a H1 H2). simpl.
  by rewrite collapse_vals, set_property_own.
Qed.

(** The value that the last attribute of a type stores is the one found in
    the decoded entry. *)
Lemma decode_lookup_last (e : entry) (pre post : list attribute) (a : attribute)
    (p : profile) (val : jsval) :
  attributes e = (pre ++ a :: post)%list ->
  Forall (fun a' => type a' <> type a) post ->
  type a <> "controls" ->
  (forall obj : profile, decodeAttribute obj a = Return (<[type a := val]> obj)) ->
  decodeSearchEntry e = Return p ->
  p !! type a = Some val.
Proof.
  intros Hsplit Hpost Hctl Hattr. unfold decodeSearchEntry.
  rewrite Hsplit, forEach_app.
  destruct (forEach pre decodeAttribute _) as [obj1|x]; simpl; [|discriminate].
  rewrite Hattr. simpl.
  destruct (forEach post decodeAttribute _) as [obj2|x] eqn:E2; simpl; [|discriminate].
  destruct (forEach (controls e) pushControl obj2) as [obj3|x] eqn:E3; simpl; [|discriminate].
  intros [= <-].
  rewrite (pushControls_lookup_ne _ _ _ _ E3 Hctl).
  rewrite (decodeAttributes_lookup_ne _ _ _ _ E2 Hpost).
  by rewrite lookup_insert_eq.
Qed.

(** X16. An [objectGUID] attribute is decoded from its first buffer alone:
    the value stored is the string that [formatGuid] makes of it (the empty
    array if that string were empty); with a first buffer of 16 bytes it is
    the 36-character GUID string, whatever the further buffers and the
    string values are. *)
Theorem decode_guid (a : attribute) (b : list byte) (rest : list (list byte)) :
  type a = "objectGUID" -> buffers a = b :: rest ->
  (forall obj : profile,
     decodeAttribute obj a
     = Return (<["objectGUID" := if String.eqb (formatGuid b) ""
                                 then JArr [] else JStr (formatGuid b)]> obj))
  /\ (List.length b = 16 ->
      forall obj : profile,
        decodeAttribute obj a = Return (<["objectGUID" := JStr (formatGuid b)]> obj)).
Proof.
  intros Ht Hb. split.
  - intros obj. by apply decodeAttribute_guid with rest.
  - intros Hlen obj. by apply decodeAttribute_guid_16 with rest.
Qed.

Lemma decode_guid_witness :
  decodeAttribute ∅ guid_attribute
  = Return (<["objectGUID" := JStr "04030201-0605-0807-090a-0b0c0d0e0f10"]> ∅).
Proof.
  pose proof (proj2 (decode_guid guid_attribute _ _ eq_refl eq_refl) eq_refl ∅) as H.
  rewrite H. vm_compute. reflexivity.
Defined.

(** ** formatGuid: distinct bytes, further bytes *)

Lemma hex_digits_inj (b b' : byte) : hi b = hi b' -> lo b = lo b' -> b = b'.
Proof.
  intros Hh Hl. pose proof (hex2_value b) as H. pose proof (hex2_value b') as H'.
  rewrite Hh, Hl, H' in H.
  assert (Hs : Some b' = Some b) by (by rewrite <- !Byte.of_to_N, H).
  by injection Hs.
Qed.

(** X17. On inputs of 16 bytes [formatGuid] is injective: the bytes can be
    read back from the string, so two different GUIDs never get the same
    string. *)
Theorem formatGuid_injective (d d' : list byte) :
  List.length d = 16 -> List.length d' = 16 ->
  formatGuid d = formatGuid d' -> d = d'.
Proof.
  intros Hlen Hlen'.
  do 16 (destruct d as [|? d]; [discriminate Hlen|]).
  destruct d; [clear Hlen | discriminate Hlen].
  do 16 (destruct d' as [|? d']; [discriminate Hlen'|]).
  destruct d'; [clear Hlen' | discriminate Hlen'].
  rewrite !formatGuid_16. unfold hex2, hexpair. cbn [String.append].
  intros H. injection H. intros.
  repeat f_equal; by apply hex_digits_inj.
Qed.

Lemma formatGuid_injective_witness :
  [x01;x02;x03;x04;x05;x06;x07;x08;x09;x0a;x0b;x0c;x0d;x0e;x0f;x10]
  = [x01;x02;x03;x04;x05;x06;x07;x08;x09;x0a;x0b;x0c;x0d;x0e;x0f;x10].
Proof.
  exact (formatGuid_injective
           [x01;x02;x03;x04;x05;x06;x07;x08;x09;x0a;x0b;x0c;x0d;x0e;x0f;x10]
           [x01;x02;x03;x04;x05;x06;x07;x08;x09;x0a;x0b;x0c;x0d;x0e;x0f;x10]
           eq_refl eq_refl eq_refl).
Defined.

Lemma formatGuid_loop_app (l1 l2 : list byte) :
  forall i fmt,
    formatGuid_loop i (l1 ++ l2) fmt
    = formatGuid_loop (i + List.length l1) l2 (formatGuid_loop i l1 fmt).
Proof.
  induction l1 as [|d l1 IH]; intros i fmt; simpl.
  - by rewrite Nat.add_0_r.
  - rewrite IH. f_equal. lia.
Qed.

Lemma replaceAll_no_brace (pat repl s : string) :
  Forall (fun c => c <> "{"%char) (list_ascii_of_string s) ->
  JsString.replaceAll (String "{" pat) repl s = s.
Proof.
  unfold JsString.replaceAll. generalize EmptyString as before.
  induction s as [|c s IH]; intros before H; [reflexivity|].
  inversion H as [|? ? Hc Hs]; subst.
  cbn [JsString.replace_from].
  change (String.prefix (String "{" pat) (String c s))
    with (if ascii_dec "{" c then String.prefix pat s else false).
  destruct (ascii_dec "{" c) as [<-|_]; [by destruct Hc|].
  by rewrite IH.
Qed.

Lemma formatGuid_loop_no_brace (l : list byte) :
  forall i s,
    Forall (fun c => c <> "{"%char) (list_ascii_of_string s) ->
    formatGuid_loop i l s = s.
Proof.
  induction l as [|d l IH]; intros i s H; [reflexivity|].
  cbn [formatGuid_loop].
  change ("{" ++ JsString.decimal i ++ "}") with (String "{" (JsString.decimal i ++ "}")).
  rewrite replaceAll_no_brace by done. by apply IH.
Qed.

Lemma formatGuid_16_no_brace (d : list byte) :
  List.length d = 16 ->
  Forall (fun c => c <> "{"%char) (list_ascii_of_string (formatGuid d)).
Proof.
  intros Hlen.
  do 16 (destruct d as [|? d]; [discriminate Hlen|]).
  destruct d; [clear Hlen | discriminate Hlen].
  rewrite formatGuid_16. unfold hex2, hexpair.
  cbn [list_ascii_of_string String.append].
  repeat (apply List.Forall_cons;
          [first [apply lower_hex_plain; hex_side | discriminate]|]).
  apply List.Forall_nil.
Qed.

(** X18. Bytes beyond the sixteenth do not change the result: a buffer
    longer than 16 bytes gives the GUID string of its first 16 bytes. *)
Theorem formatGuid_ignores_further_bytes (d extra : list byte) :
  List.length d = 16 -> formatGuid (d ++ extra) = formatGuid d.
Proof.
  intros Hlen. unfold formatGuid. rewrite formatGuid_loop_app.
  apply formatGuid_loop_no_brace. by apply formatGuid_16_no_brace.
Qed.

Lemma formatGuid_ignores_further_bytes_witness :
  formatGuid ([x01;x02;x03;x04;x05;x06;x07;x08;x09;x0a;x0b;x0c;x0d;x0e;x0f;x10]
              ++ [xaa; xbb])
  = formatGuid [x01;x02;x03;x04;x05;x06;x07;x08;x09;x0a;x0b;x0c;x0d;x0e;x0f;x10].
Proof.
  exact (formatGuid_ignores_further_bytes
           [x01;x02;x03;x04;x05;x06;x07;x08;x09;x0a;x0b;x0c;x0d;x0e;x0f;x10]
           [xaa; xbb] eq_refl).
Defined.

(** ** strategy.js: the constructor, the credentials, the mapped profile *)

(** X19. A strategy is constructed only with a verify function and an LDAP
    url that is not empty; its two field names are then never empty, its
    validator is the one made from the [ldap] options, and the search
    template of that validator is never empty. *)
Theorem strategy_constructed
    (o : option Strategy.strategy_options) (vf : bool) (st : Strategy.t) :
  Strategy.new o vf = inr st ->
  vf = true
  /\ (exists so l, o = Some so /\ Strategy.ldap so = Some l /\ url l <> ""
                   /\ Strategy._ldapValidator st = newLdapValidator l)
  /\ Strategy._usernameField st <> "" /\ Strategy._passwordField st <> ""
  /\ _search_query (Strategy._ldapValidator st) <> "".
Proof.
  unfold Strategy.new. destruct vf; simpl; [|discriminate].
  destruct o as [so|]; [|discriminate].
  destruct (Strategy.ldap so) as [l|] eqn:El; [|discriminate].
  destruct (String.eqb_spec (url l) "") as [|Hurl]; [discriminate|].
  intros [= <-]. simpl. split; [done|]. split; [by exists so, l|].
  assert (Hf : forall f d, d <> "" -> Strategy.field_or f d <> "").
  { intros [s|] d Hd; simpl; [|done].
    by destruct (String.eqb_spec s ""). }
  split; [by apply Hf|]. split; [by apply Hf|].
  destruct (search_query l) as [q|]; [|done].
  by destruct (String.eqb_spec q "").
Qed.

Lemma strategy_constructed_witness :
  Strategy._usernameField sample_strategy <> "".
Proof.
  refine (proj1 (proj2 (proj2
    (strategy_constructed
       (Some {| Strategy.ldap := Some sample_options; Strategy.passReqToCallback := false;
                Strategy.usernameField := None; Strategy.passwordField := Some "" |})
       true sample_strategy eq_refl)))).
Defined.

Lemma falsy_rejected (x : jsval) : truthy x = false -> rejected x = true.
Proof.
  destruct x; try reflexivity. simpl. unfold truthy.
  destruct (String.eqb_spec s "") as [->|]; [reflexivity | discriminate].
Qed.

Lemma credential_falsy (req : Strategy.request) (f : string) :
  truthy (Strategy.get (Strategy.body req) f) = false ->
  truthy (Strategy.get (Strategy.query req) f) = false ->
  rejected (Strategy.credential req f) = true.
Proof.
  intros Hb Hq. apply falsy_rejected. unfold Strategy.credential, Strategy.js_or.
  by rewrite Hb.
Qed.

(** X20. When neither the body nor the query of the request holds a truthy
    value under the username field, or under the password field, the call
    of [authenticate] throws the ReferenceError of [validate]: neither
    [self.error] nor the verify function is ever called, and nothing is sent
    to the directory. *)
Theorem authenticate_without_credentials
    (st : Strategy.t) (req : Strategy.request) (tr : list event) :
  (truthy (Strategy.get (Strategy.body req) (Strategy._usernameField st)) = false
   /\ truthy (Strategy.get (Strategy.query req) (Strategy._usernameField st)) = false)
  \/ (truthy (Strategy.get (Strategy.body req) (Strategy._passwordField st)) = false
      /\ truthy (Strategy.get (Strategy.query req) (Strategy._passwordField st)) = false) ->
  uncaught (run tr (Strategy.authenticate st req))
  = [ReferenceError "Cannot access 'client' before initialization"]
  /\ Strategy.effects st req (run tr (Strategy.authenticate st req)) = []
  /\ ops (run tr (Strategy.authenticate st req)) = [].
Proof.
  intros H. unfold Strategy.authenticate, Strategy.effects.
  rewrite run_rejected; [done|].
  destruct H as [[Hb Hq]|[Hb Hq]]; [left | right]; by apply credential_falsy.
Qed.

Lemma authenticate_without_credentials_witness :
  Strategy.effects sample_strategy empty_request
    (run [BindReply None] (Strategy.authenticate sample_strategy empty_request)) = [].
Proof.
  refine (proj1 (proj2 (authenticate_without_credentials sample_strategy empty_request
                          [BindReply None] _))).
  left. split; reflexivity.
Defined.

Lemma called_at_most_one (v : LdapValidator) (u p : jsval) (tr : list event) :
  List.length (called (run tr (validate v u p))) <= 1.
Proof.
  destruct (validate_cases v u p tr) as [->|(_ & _ & Hinv)]; [simpl; lia|].
  destruct Hinv as [_ Hl _ _ _ _ _ _ _].
  destruct (notSent _).
  - destruct Hl as (-> & _). simpl. lia.
  - destruct Hl as [[c ->] _]. simpl. lia.
Qed.

(** X21. Whatever events follow a call of [authenticate], its callback acts
    at most once, either by [self.error] or by calling the verify function;
    the verify function receives a profile only after the verification bind
    has succeeded, and that profile is the mapping of the decoding of an
    entry that the search delivered. *)
Theorem authenticate_effects
    (st : Strategy.t) (req : Strategy.request) (tr : list event) :
  List.length (Strategy.effects st req (run tr (Strategy.authenticate st req))) <= 1
  /\ (forall r m,
        In (Strategy.CallVerify r (Some m))
           (Strategy.effects st req (run tr (Strategy.authenticate st req))) ->
        In (VerifyReply None) tr
        /\ exists e0 prof, In (SearchEntry e0) tr
                           /\ decodeSearchEntry e0 = Return prof
                           /\ m = Strategy.mapProfile_object prof).
Proof.
  unfold Strategy.effects, Strategy.authenticate. split.
  - rewrite length_fmap. apply called_at_most_one.
  - intros r m Hin. apply in_map_iff in Hin. destruct Hin as ([e prof] & Heq & Hin).
    unfold Strategy.on_validated in Heq. simpl in Heq.
    destruct e as [err|]; [discriminate|].
    destruct prof as [prof|]; [|discriminate]. simpl in Heq.
    injection Heq as _ <-.
    destruct (profile_provenance _ _ _ _ _ _ Hin) as (_ & Hv & e0 & He0 & Hd).
    split; [done|]. by exists e0, prof.
Qed.

Lemma formatGuid_truthy_16 (b : list byte) :
  List.length b = 16 -> truthy (JStr (formatGuid b)) = true.
Proof.
  intros Hlen. unfold truthy.
  destruct (String.eqb_spec (formatGuid b) "") as [E|_]; [|reflexivity].
  pose proof (formatGuid_length_16 b Hlen) as H36. rewrite E in H36. discriminate H36.
Qed.

(** X22. For an entry whose last [objectGUID] attribute has a first buffer of
    16 bytes, the [id] of the mapped profile is the GUID string of that
    buffer, whatever [uid] is, and [_json] is the decoded profile itself. *)
Theorem mapped_id_is_guid
    (e : entry) (p : profile) (pre post : list attribute) (a : attribute)
    (b : list byte) (rest : list (list byte)) :
  decodeSearchEntry e = Return p ->
  attributes e = (pre ++ a :: post)%list ->
  type a = "objectGUID" ->
  Forall (fun a' => type a' <> "objectGUID") post ->
  buffers a = b :: rest -> List.length b = 16 ->
  Strategy.id (Strategy.mapProfile_object p) = JStr (formatGuid b)
  /\ Strategy._json (Strategy.mapProfile_object p) = p.
Proof.
  intros Hd Hsplit Ht Hpost Hb Hlen. split; [|reflexivity].
  assert (Hl : p !! type a = Some (JStr (formatGuid b))).
  { apply (decode_lookup_last e pre post a p _ Hsplit); try done.
    - by rewrite Ht.
    - by rewrite Ht.
    - intros obj. rewrite Ht. by apply decodeAttribute_guid_16 with rest. }
  rewrite Ht in Hl. simpl. unfold Strategy.js_or, Strategy.get. rewrite Hl. simpl.
  by rewrite formatGuid_truthy_16.
Qed.

Lemma mapped_id_is_guid_witness :
  Strategy.id (Strategy.mapProfile_object bob_profile)
  = JStr (formatGuid [x01;x02;x03;x04;x05;x06;x07;x08;x09;x0a;x0b;x0c;x0d;x0e;x0f;x10]).
Proof.
  refine (proj1 (mapped_id_is_guid mail_less_entry bob_profile
                   [ {| type := "mail"; vals := []; buffers := [] |} ] []
                   _ _ [] _ eq_refl eq_refl (List.Forall_nil _) eq_refl eq_refl)).
  vm_compute. reflexivity.
Defined.

Lemma truthy_collapsed (vs : list string) :
  truthy (collapsed vs) = match vs with
                          | [v] => negb (String.eqb v "")
                          | _ => true
                          end.
Proof. destruct vs as [|v [|w vs]]; reflexivity. Qed.

(** X23. For an entry whose last [mail] attribute has the values [vs], the
    mapped profile has no [emails] only when [vs] is one empty string;
    otherwise [emails] is one object whose [value] is the collapsed value,
    so an attribute without any value gives [[{value: []}]]. *)
Theorem mapped_emails
    (e : entry) (p : profile) (pre post : list attribute) (a : attribute) :
  decodeSearchEntry e = Return p ->
  attributes e = (pre ++ a :: post)%list ->
  type a = "mail" ->
  Forall (fun a' => type a' <> "mail") post ->
  Strategy.emails (Strategy.mapProfile_object p)
  = match vals a with
    | [v] => if String.eqb v "" then JUndefined
             else JArr [JObj [("value", JStr v)]]
    | vs => JArr [JObj [("value", collapsed vs)]]
    end.
Proof.
  intros Hd Hsplit Ht Hpost.
  assert (Hl : p !! type a = Some (collapsed (vals a))).
  { apply (decode_lookup_last e pre post a p _ Hsplit); try done.
    - by rewrite Ht.
    - by rewrite Ht.
    - intros obj. apply decodeAttribute_default; by rewrite Ht. }
  rewrite Ht in Hl. simpl. unfold Strategy.get. rewrite Hl. simpl.
  rewrite truthy_collapsed.
  destruct (vals a) as [|v [|w vs]]; try reflexivity.
  simpl. by destruct (String.eqb v "").
Qed.

Lemma mapped_emails_witness :
  Strategy.emails (Strategy.mapProfile_object bob_profile)
  = JArr [JObj [("value", JArr [])]].
Proof.
  refine (mapped_emails mail_less_entry bob_profile [] _ _ _ eq_refl eq_refl _).
  - vm_compute. reflexivity.
  - repeat constructor; discriminate.
Defined.

(** ** validate: the filter of a username without dollar signs *)

Lemma filter_step_other (pat repl : string) (c : ascii) (s t : string) :
  plain repl ->
  String.prefix pat (String c s) = false ->
  JsString.replaceAll pat repl s = t ->
  JsString.replaceAll pat repl (String c s) = String c t.
Proof. intros Hp Hpre <-. by apply replaceAll_miss. Qed.

Lemma filter_step_hit (a b c : ascii) (repl s t : string) :
  plain repl ->
  JsString.replaceAll (String a (String b (String c ""))) repl s = t ->
  JsString.replaceAll (String a (String b (String c ""))) repl
    (String a (String b (String c s)))
  = repl ++ t.
Proof. intros Hp <-. exact (replaceAll_hit a (String b (String c "")) repl s Hp). Qed.

(** X24. With the default search template and a username that holds no
    dollar sign, the filter is the template with the username itself in the
    place of both placeholders. *)
Theorem default_filter_of_plain_username (o : options) (name : string) :
  search_query o = None -> plain name ->
  search_filter (newLdapValidator o) (JStr name)
  = "(&(objectclass=user)(|(sAMAccountName=" ++ name
    ++ ")(UserPrincipalName=" ++ name ++ ")))".
Proof.
  intros Hq Hp. unfold search_filter.
  rewrite (default_search_query o Hq). unfold DEFAULT_SEARCH_QUERY, string_of.
  repeat first
    [ reflexivity
    | eapply filter_step_hit; [exact Hp|]
    | eapply filter_step_other; [exact Hp | reflexivity |] ].
Qed.

Lemma default_filter_of_plain_username_witness :
  search_filter (newLdapValidator sample_options) (JStr "alice")
  = "(&(objectclass=user)(|(sAMAccountName=" ++ "alice"
    ++ ")(UserPrincipalName=" ++ "alice" ++ ")))".
Proof.
  refine (default_filter_of_plain_username sample_options "alice" eq_refl _).
  repeat constructor; discriminate.
Defined.
